(** * video_inference.py: the COMISR video super-resolution driver

    A shallow embedding of [src/video_inference.py]: the [VideoReader]
    helper class, the checkpoint restore map, the numeric conversions
    between 8-bit frames and float32 tensors, and [process_video] itself
    as a program in a state-and-exception monad that records every call
    to a collaborator (OpenCV, the TensorFlow session, the shell) in a
    trace.

    What the driver cannot see is a parameter, gathered in the record
    [Env]: the video files, whether a writer opens, what the encoder does
    to the file system, and the pretrained graph, whose two fetched
    operations are arbitrary functions of the fed tensor and of the three
    state variables. Every theorem holds for all of them. Calls into the
    graph and the codec are taken to return: the exceptions modelled are
    the ones the driver raises itself and the ones Python raises on the
    driver's own expressions ([len], the division of the closing report).

    Numbers are as in the source: Python integers are [Z], float32 values
    are [spec_float] at precision 24, and 8-bit pixels are integers with
    the range as a predicate. *)

From Stdlib Require Import ZArith List String Ascii Bool Lia.
From Stdlib Require Import Floats.SpecFloat.
From stdpp Require Import base gmap sets list strings.

Local Open Scope string_scope.
Local Open Scope list_scope.
Local Open Scope Z_scope.

(** ** Python strings *)

Module PyStr.

(** [s[:-2]]: everything but the last two characters (empty when the
    string has fewer than two). *)
Definition drop_last2 (s : string) : string :=
  substring 0 (String.length s - 2) s.

Fixpoint to_list (s : string) : list ascii :=
  match s with
  | EmptyString => []
  | String c r => c :: to_list r
  end.

(** [p.rfind('/') + 1]: the length of the prefix that ends with the last
    slash, 0 when there is none. *)
Fixpoint rfind_slash_succ (s : string) : nat :=
  match s with
  | EmptyString => O
  | String c r =>
      match rfind_slash_succ r with
      | O => if Ascii.eqb c "/" then 1%nat else O
      | S k => S (S k)
      end
  end.

Fixpoint all_slashes (s : string) : bool :=
  match s with
  | EmptyString => true
  | String c r => Ascii.eqb c "/" && all_slashes r
  end.

Fixpoint rev_chars (s acc : string) : string :=
  match s with
  | EmptyString => acc
  | String c r => rev_chars r (String c acc)
  end.

Fixpoint lstrip_slash (s : string) : string :=
  match s with
  | String c r => if Ascii.eqb c "/" then lstrip_slash r else s
  | EmptyString => EmptyString
  end.

Definition rstrip_slash (s : string) : string :=
  rev_chars (lstrip_slash (rev_chars s "")) "".

(** [os.path.dirname] (posixpath): the head up to the last slash, with
    trailing slashes stripped unless the head is made of slashes only. *)
Definition dirname (p : string) : string :=
  let head := substring 0 (rfind_slash_succ p) p in
  if negb (String.eqb head "") && negb (all_slashes head)
  then rstrip_slash head else head.

End PyStr.

(** ** The fragment of Python's [re.match] the restore map exercises

  [re.match(pattern, string)] anchors the pattern at the start of the
  string. The driver passes a variable name as the pattern; graph names
  are made of letters, digits and [_ . / > - :]. For a pattern with no
  metacharacter but the dot, matching is a character-by-character prefix
  test in which the dot stands for any character except a newline.
  Patterns with any other metacharacter are outside this fragment:
  [re_match] answers [None] on them. *)

Module PyRe.

Definition is_meta (c : ascii) : bool :=
  existsb (Ascii.eqb c)
    ["\"; "^"; "$"; "*"; "+"; "?"; "{"; "}"; "["; "]"; "|"; "("; ")"]%char.

Definition newline : ascii := ascii_of_nat 10.

Definition atom_matches (p c : ascii) : bool :=
  if Ascii.eqb p "." then negb (Ascii.eqb c newline) else Ascii.eqb p c.

Fixpoint match_prefix (p s : list ascii) : bool :=
  match p with
  | [] => true
  | a :: p' =>
      match s with
      | [] => false
      | c :: s' => atom_matches a c && match_prefix p' s'
      end
  end.

Definition in_fragment (pattern : string) : bool :=
  negb (existsb is_meta (PyStr.to_list pattern)).

(** [Some true]: a match object (truthy); [Some false]: Python's [None]. *)
Definition re_match (pattern str : string) : option bool :=
  if in_fragment pattern
  then Some (match_prefix (PyStr.to_list pattern) (PyStr.to_list str))
  else None.

End PyRe.

(** ** Graph variables and the checkpoint restore map *)

Record TFVariable := { var_name : string; var_trainable : bool }.

#[global] Instance TFVariable_eq_dec : EqDecision TFVariable.
Proof. solve_decision. Defined.

(** What is handed to [tf.train.Saver]: a dict from checkpoint names to
  variables when [use_ema] is set, the plain variable list otherwise. *)
Inductive RestoreSpec :=
| RestoreDict (d : gmap string TFVariable)
| RestoreList (l : list TFVariable).

Module Restore.

Definition global_step_pattern : string := ".*global_step.*".
Definition ema_suffix : string := "/ExponentialMovingAverage".

(** The key of line 292-295. Note the argument order of the call in the
    source, [re.match(v.name, '.*global_step.*')]: the variable's name is
    the pattern and the global-step expression is the subject string. *)
Definition restore_key (v : TFVariable) : option string :=
  match PyRe.re_match (var_name v) global_step_pattern with
  | Some true => Some (PyStr.drop_last2 (var_name v))
  | Some false => Some (PyStr.drop_last2 (var_name v) +:+ ema_suffix)
  | None => None
  end.

(** The [for v in var_list] loop, threading the dict. *)
Fixpoint fill_dict (var_list : list TFVariable) (d : gmap string TFVariable)
  : option (gmap string TFVariable) :=
  match var_list with
  | [] => Some d
  | v :: rest =>
      match restore_key v with
      | Some k => fill_dict rest (<[k := v]> d)
      | None => None
      end
  end.

Definition restore_vars_dict (use_ema : bool) (var_list : list TFVariable)
  : option RestoreSpec :=
  if use_ema
  then option_map RestoreDict (fill_dict var_list ∅)
  else Some (RestoreList var_list).

End Restore.

(** ** float32 arithmetic

  IEEE 754 binary32 through the Standard Library's executable
  specification ([SpecFloat], 24 bits of precision, exponent bound 128),
  and the three NumPy conversions the frame loop performs. *)

Module F32.

Definition prec : Z := 24.
Definition emax : Z := 128.

(** [astype(np.float32)] on an integer, and Python's literals. *)
Definition of_Z (z : Z) : spec_float := binary_normalize prec emax z 0 false.

Definition mul : spec_float -> spec_float -> spec_float := SFmul prec emax.
Definition div : spec_float -> spec_float -> spec_float := SFdiv prec emax.

Definition zero : spec_float := of_Z 0.
Definition one : spec_float := of_Z 1.
Definition c255 : spec_float := of_Z 255.

Definition is_nan (x : spec_float) : bool :=
  match x with S754_nan => true | _ => false end.

(** [lo <= x <= hi] with IEEE comparisons (false on NaN). *)
Definition between (lo hi x : spec_float) : bool :=
  SFleb lo x && SFleb x hi.

(** The element loop of [np.clip] for floating types:
    [_NPY_MIN(_NPY_MAX(x, lo), hi)], each of which returns its first
    argument when that is NaN and compares with [>] / [<] otherwise. *)
Definition npy_max (a b : spec_float) : spec_float :=
  if is_nan a then a else if SFltb b a then a else b.

Definition npy_min (a b : spec_float) : spec_float :=
  if is_nan a then a else if SFltb a b then a else b.

Definition clip (x lo hi : spec_float) : spec_float :=
  npy_min (npy_max x lo) hi.

(** The integer part of a float (rounding toward zero); NaN and the
    infinities have none. *)
Definition trunc (x : spec_float) : option Z :=
  match x with
  | S754_zero _ => Some 0
  | S754_finite s m e =>
      Some (cond_Zopp s (if 0 <=? e then Zpos m * 2 ^ e else Zpos m / 2 ^ (- e)))
  | _ => None
  end.

(** [astype(np.uint8)] on a float: the C conversion to an 8-bit unsigned
    integer. It yields the integer part when that fits in 0..255; for
    anything else (an out-of-range value, an infinity, NaN) C leaves the
    result undefined and NumPy gives a wrapped or platform-dependent
    byte: [None] here. *)
Definition astype_uint8 (x : spec_float) : option Z :=
  match trunc x with
  | Some z => if (0 <=? z) && (z <=? 255) then Some z else None
  | None => None
  end.

(** Line 343, per element: [astype(np.float32) / 255.0]. *)
Definition normalize (v : Z) : spec_float := div (of_Z v) c255.

(** Line 357, per element: [np.clip(x * 255.0, 0, 255).astype(np.uint8)]. *)
Definition clipped (x : spec_float) : spec_float :=
  clip (mul x c255) zero c255.

Definition to_pixel (x : spec_float) : option Z := astype_uint8 (clipped x).

End F32.

(** ** Frames and tensors

  A decoded frame is a height x width x channel array of 8-bit values
  (here integers; [is_uint8_frame] says they are bytes); a tensor of the
  graph is a batch of float32 images. *)

Definition RawFrame : Type := list (list (list Z)).
Definition Tensor : Type := list (list (list (list spec_float))).
Definition Image : Type := list (list (list (option Z))).

Module Frame.

(** [frame[:, :, ::-1]]: the channel axis reversed. *)
Definition reverse_channels {A : Type} (f : list (list (list A)))
  : list (list (list A)) :=
  map (map (@rev A)) f.

(** [shape[0]] and [shape[1]]. *)
Definition height (f : RawFrame) : Z := Z.of_nat (length f).
Definition width (f : RawFrame) : Z := Z.of_nat (length (hd [] f)).

Definition map3 {A B : Type} (g : A -> B) (f : list (list (list A)))
  : list (list (list B)) :=
  map (map (map g)) f.

(** [np.array([frame]).astype(np.float32) / 255.0] *)
Definition to_input (frame : RawFrame) : Tensor := [map3 F32.normalize frame].

(** [np.clip(output_frame[0] * 255.0, 0, 255).astype(np.uint8)[:, :, ::-1]];
    indexing an empty batch is not reached: the session returns a batch
    of one. *)
Definition to_output (output_frame : Tensor) : Image :=
  reverse_channels (map3 F32.to_pixel (hd [] output_frame)).

Definition is_uint8 (v : Z) : Prop := 0 <= v <= 255.

Definition is_uint8_frame (f : RawFrame) : Prop :=
  Forall (Forall (Forall is_uint8)) f.

(** [tf.zeros(shape)] for a rank-4 shape. *)
Definition zeros (shape : list Z) : Tensor :=
  match shape with
  | [n; h; w; c] =>
      replicate (Z.to_nat n)
        (replicate (Z.to_nat h)
           (replicate (Z.to_nat w)
              (replicate (Z.to_nat c) (S754_zero false))))
  | _ => []
  end.

End Frame.

(** ** The outside world

    A video file as OpenCV presents it: container metadata and the frames
    that decode. The frame count of the metadata is an estimate of the
    container and need not be the number of frames that decode. *)

Record Video := {
  v_fps : spec_float;
  v_frame_count : Z;
  v_width : Z;
  v_height : Z;
  v_frames : list RawFrame
}.

(** An opened [cv2.VideoCapture]: the file and the index of the next frame. *)
Record Capture := { cap_video : Video; cap_pos : nat }.

(** Which capture an event belongs to: the one inside [VideoReader] or the
    one [process_video] opens to look at the first frame. *)
Inductive CapId := ReaderCap | ProbeCap.

(** The calls to collaborators, with the loop index [i] of [enumerate]
    where a call is made inside the frame loop. *)
Inductive Event :=
| EvCaptureOpen (who : CapId) (path : string) (opened : bool)
| EvCaptureSeek (who : CapId) (pos : Z)
| EvCaptureRead (who : CapId) (frame : option RawFrame)
| EvCaptureRelease (who : CapId)
| EvBuildGraph (input_shape output_shape : list Z) (paddings : list (list Z))
    (num_resblock vsr_scale : Z)
| EvSaver (restore : RestoreSpec)
| EvMakedirs (dir : string)
| EvWriterOpen (path : string) (fps : spec_float) (size : Z * Z) (opened : bool)
| EvSessionInit
| EvRestore (checkpoint : string)
| EvRunBeforeOps (i : nat) (feed : Tensor)
| EvRunOutputs (i : nat) (feed output : Tensor)
| EvWriterWrite (i : nat) (img : Image)
| EvWriterRelease
| EvSystem (cmd : string)
| EvRemove (path : string).

(** The paths that exist, and the calls made so far (oldest first). *)
Record World := { fs : gset string; trace : list Event }.

Inductive exn :=
| ValueError (msg : string)
| OverflowError (msg : string)
| ZeroDivisionError.

(** [Beyond]: the run left the modelled fragment (a variable name that is
    not a dot-and-literals pattern, or an exhausted iteration bound, which
    lemma [frame_loop_runs] shows never happens in [process_video]). *)
Inductive outcome (A : Type) :=
| Return (a : A)
| Raise (e : exn)
| Beyond.
Arguments Return {A} a.
Arguments Raise {A} e.
Arguments Beyond {A}.

(** ** The state-and-exception monad of the driver *)

Definition M (A : Type) : Type := World -> outcome A * World.

Definition ret {A} (a : A) : M A := fun w => (Return a, w).

Definition bind {A B} (c : M A) (k : A -> M B) : M B :=
  fun w =>
    match c w with
    | (Return a, w') => k a w'
    | (Raise e, w') => (Raise e, w')
    | (Beyond, w') => (Beyond, w')
    end.

Definition raise {A} (e : exn) : M A := fun w => (Raise e, w).
Definition beyond {A} : M A := fun w => (Beyond, w).

Definition emit (e : Event) : M unit :=
  fun w => (Return tt, {| fs := fs w; trace := trace w ++ [e] |}).

Definition get_fs : M (gset string) := fun w => (Return (fs w), w).

Definition set_fs (s : gset string) : M unit :=
  fun w => (Return tt, {| fs := s; trace := trace w |}).

Definition when (b : bool) (c : M unit) : M unit := if b then c else ret tt.

Declare Scope driver_scope.
Delimit Scope driver_scope with driver.
Notation "'let!' x ':=' c 'in' k" := (bind c (fun x => k))
  (at level 10, x name, c at level 100, k at level 200) : driver_scope.
Notation "'let!' ' p ':=' c 'in' k" := (bind c (fun x => let 'p := x in k))
  (at level 10, p pattern, c at level 100, k at level 200) : driver_scope.
Notation "c ;; k" := (bind c (fun _ => k))
  (at level 100, k at level 200, right associativity) : driver_scope.
Local Open Scope driver_scope.

(** ** Python's [len] and the float64 test [fps == 0] *)

Module Py.

(** [sys.maxsize] of a 64-bit CPython. *)
Definition maxsize : Z := 2 ^ 63 - 1.

(** The built-in [len] applied to what [__len__] returned. *)
Definition len (n : Z) : M Z :=
  if n <? 0 then raise (ValueError "__len__() should return >= 0")
  else if maxsize <? n
       then raise (OverflowError "cannot fit 'int' into an index-sized integer")
       else ret n.

(** [x == 0] on a float64. *)
Definition float_is_zero (x : spec_float) : bool := SFeqb x (S754_zero false).

End Py.

(** ** OpenCV captures *)

Module Cap.

(** [cap.read()]: the next frame, or failure at the end of the stream. *)
Definition read (c : Capture) : option RawFrame * Capture :=
  match v_frames (cap_video c) !! cap_pos c with
  | Some f => (Some f, {| cap_video := cap_video c; cap_pos := S (cap_pos c) |})
  | None => (None, c)
  end.

(** [cap.set(cv2.CAP_PROP_POS_FRAMES, n)] *)
Definition seek (c : Capture) (n : Z) : Capture :=
  {| cap_video := cap_video c; cap_pos := Z.to_nat n |}.

End Cap.

(** ** The driver *)

Record VideoReader := {
  video_path : string;
  cap : Capture;
  fps : spec_float;
  frame_count : Z;
  width : Z;
  height : Z;
  start_frame : Z;
  end_frame : Z;
  current_frame : Z
}.

(** What [__next__] does: hand out a frame or raise [StopIteration]. *)
Inductive Step :=
| StopIteration
| Yield (frame : RawFrame) (r : VideoReader).

(** The three graph variables that carry state from frame to frame. *)
Record Session := { pre_inputs : Tensor; pre_gen : Tensor; pre_warp : Tensor }.

(** The collaborators. [videos] is what [cv2.VideoCapture] finds at a path
    ([None]: it does not open); [writer_can_open] whether [cv2.VideoWriter]
    opens on a path; [os_system] what running a shell command does to the
    file system. The pretrained graph: [generator_net inputs_raw pre_warp]
    is [ops.deprocess(generator_f(concat(inputs_raw,
    space_to_depth(pre_warp))))]; [warp_net pre_gen pre_inputs inputs_raw]
    is [pre_warp_hi], the previous output warped along the flow that [fnet]
    estimates between the previous and the current input, plus its detail
    layer; [trainable_variables] is what [tf.trainable_variables()] lists
    once the graph is built. *)
Record Env := {
  videos : string -> option Video;
  writer_can_open : string -> bool;
  os_system : string -> gset string -> gset string;
  generator_net : Tensor -> Tensor -> Tensor;
  warp_net : Tensor -> Tensor -> Tensor -> Tensor;
  trainable_variables : list TFVariable
}.

(** *** class VideoReader *)

(** The object as [__init__] leaves it before the seek. *)
Definition reader_fresh (path : string) (v : Video) (start_frame end_frame : Z)
  : VideoReader :=
  {| video_path := path;
     cap := {| cap_video := v; cap_pos := 0 |};
     fps := v_fps v;
     frame_count := v_frame_count v;
     width := v_width v;
     height := v_height v;
     start_frame := start_frame;
     end_frame := if 0 <? end_frame then end_frame else v_frame_count v;
     current_frame := 0 |}.

(** Lines 88-90: [cap.set(CAP_PROP_POS_FRAMES, start_frame)] and
    [current_frame = start_frame]. *)
Definition reader_seek (r : VideoReader) (n : Z) : VideoReader :=
  {| video_path := video_path r; cap := Cap.seek (cap r) n;
     fps := fps r; frame_count := frame_count r;
     width := width r; height := height r;
     start_frame := start_frame r; end_frame := end_frame r;
     current_frame := n |}.

(** The object [__init__] builds on a video that opens. *)
Definition reader_opened (path : string) (v : Video) (start_frame end_frame : Z)
  : VideoReader :=
  let r := reader_fresh path v start_frame end_frame in
  if 0 <? start_frame then reader_seek r start_frame else r.

(** [__init__] *)
Definition reader_init (E : Env) (path : string) (start_frame end_frame : Z)
  : M VideoReader :=
  match videos E path with
  | None =>
      emit (EvCaptureOpen ReaderCap path false) ;;
      raise (ValueError ("Could not open video file: " +:+ path))
  | Some v =>
      emit (EvCaptureOpen ReaderCap path true) ;;
      let r := reader_fresh path v start_frame end_frame in
      if 0 <? start_frame
      then emit (EvCaptureSeek ReaderCap start_frame) ;;
           ret (reader_seek r start_frame)
      else ret r
  end.

(** Line 103 after a successful read. *)
Definition reader_advance (r : VideoReader) (c : Capture) : VideoReader :=
  {| video_path := video_path r; cap := c;
     fps := fps r; frame_count := frame_count r;
     width := width r; height := height r;
     start_frame := start_frame r; end_frame := end_frame r;
     current_frame := current_frame r + 1 |}.

(** [__next__] *)
Definition reader_next (r : VideoReader) : M Step :=
  if end_frame r <=? current_frame r then ret StopIteration
  else
    let '(got, c) := Cap.read (cap r) in
    emit (EvCaptureRead ReaderCap got) ;;
    match got with
    | None => ret StopIteration
    | Some frame => ret (Yield (Frame.reverse_channels frame) (reader_advance r c))
    end.

(** [__len__] *)
Definition reader_len (r : VideoReader) : Z := end_frame r - start_frame r.

(** One call of [__next__] more than there are frames left in the stream
    always reaches [StopIteration]. *)
Definition loop_bound (r : VideoReader) : nat :=
  S (length (v_frames (cap_video (cap r))) - cap_pos (cap r)).

(** [list(reader)]: the frames the iterator hands out until it stops,
    [__next__] being run on a scratch world. *)
Fixpoint reader_frames (fuel : nat) (r : VideoReader) : list RawFrame :=
  match fuel with
  | O => []
  | S fuel' =>
      match fst (reader_next r {| fs := ∅; trace := [] |}) with
      | Return (Yield frame r') => frame :: reader_frames fuel' r'
      | _ => []
      end
  end.

Definition yielded (r : VideoReader) : list RawFrame :=
  reader_frames (loop_bound r) r.

(** *** The session *)

(** [sess.run(init_op)]: the three state variables start as zeros. The
    checkpoint restore that follows touches trainable variables only, and
    all three are declared [trainable=False]. *)
Definition session_init (input_shape output_shape : list Z) : Session :=
  {| pre_inputs := Frame.zeros input_shape;
     pre_gen := Frame.zeros output_shape;
     pre_warp := Frame.zeros output_shape |}.

(** [sess.run(before_ops, feed_dict)]: [tf.assign(pre_warp, pre_warp_hi)] *)
Definition run_before_ops (E : Env) (s : Session) (feed : Tensor) : Session :=
  {| pre_inputs := pre_inputs s;
     pre_gen := pre_gen s;
     pre_warp := warp_net E (pre_gen s) (pre_inputs s) feed |}.

(** [sess.run(outputs, feed_dict)]: under the control dependency
    [tf.assign(pre_inputs, inputs_raw)], [tf.assign(pre_gen, ...)]; the
    fetched value is the new [pre_gen]. *)
Definition run_outputs (E : Env) (s : Session) (feed : Tensor)
  : Tensor * Session :=
  let out := generator_net E feed (pre_warp s) in
  (out, {| pre_inputs := feed; pre_gen := out; pre_warp := pre_warp s |}).

(** *** process_video: the frame loop *)

(** The body of [for i, frame in enumerate(video_reader)]. *)
Definition frame_body (E : Env) (i : nat) (frame : RawFrame) (s : Session)
  : M Session :=
  let input_frame := Frame.to_input frame in
  let! s1 :=
    (if negb (Nat.eqb i 0)
     then emit (EvRunBeforeOps i input_frame) ;;
          ret (run_before_ops E s input_frame)
     else ret s) in
  let '(output_frame, s2) := run_outputs E s1 input_frame in
  emit (EvRunOutputs i input_frame output_frame) ;;
  when (5 <=? i)%nat (emit (EvWriterWrite i (Frame.to_output output_frame))) ;;
  ret s2.

(** The loop itself; [fuel] bounds the number of [__next__] calls. *)
Fixpoint frame_loop (E : Env) (fuel : nat) (i : nat) (r : VideoReader)
    (s : Session) : M (VideoReader * Session) :=
  match fuel with
  | O => beyond
  | S fuel' =>
      let! it := reader_next r in
      match it with
      | StopIteration => ret (r, s)
      | Yield frame r' =>
          let! s' := frame_body E i frame s in
          frame_loop E fuel' (S i) r' s'
      end
  end.

(** *** process_video: before and after the loop *)

(** Lines 213-217: a second capture, opened only to read the first frame.
    On a capture that did not open, [read] reports failure. *)
Definition probe_first_frame (E : Env) (input_video : string) : M RawFrame :=
  let unreadable :=
    ValueError ("Could not read from video file: " +:+ input_video) in
  match videos E input_video with
  | None =>
      emit (EvCaptureOpen ProbeCap input_video false) ;;
      emit (EvCaptureRead ProbeCap None) ;;
      raise unreadable
  | Some v =>
      emit (EvCaptureOpen ProbeCap input_video true) ;;
      let '(got, _) := Cap.read {| cap_video := v; cap_pos := 0 |} in
      emit (EvCaptureRead ProbeCap got) ;;
      match got with
      | None => raise unreadable
      | Some first_frame => emit (EvCaptureRelease ProbeCap) ;; ret first_frame
      end
  end.

(** A directory and the directories above it, nearest first. *)
Fixpoint ancestors (fuel : nat) (p : string) : list string :=
  match fuel with
  | O => []
  | S fuel' =>
      if String.eqb p "" || PyStr.all_slashes p then []
      else p :: ancestors fuel' (PyStr.dirname p)
  end.

(** [gfile.makedirs] *)
Definition makedirs (dir : string) : M unit :=
  emit (EvMakedirs dir) ;;
  let! s := get_fs in
  set_fs (list_to_set (ancestors (S (String.length dir)) dir) ∪ s).

(** [cv2.VideoWriter(path, fourcc, fps, size)] and [isOpened()]; a writer
    that opens creates its file. *)
Definition writer_open (E : Env) (path : string) (fps : spec_float)
    (size : Z * Z) : M bool :=
  let ok := writer_can_open E path in
  emit (EvWriterOpen path fps size ok) ;;
  let! s := get_fs in
  when ok (set_fs ({[path]} ∪ s)) ;;
  ret ok.

(** [os.system(cmd)]; the caller drops the status it returns. *)
Definition system (E : Env) (cmd : string) : M unit :=
  emit (EvSystem cmd) ;;
  let! s := get_fs in
  set_fs (os_system E cmd s).

(** [os.remove(path)] on an existing path. *)
Definition remove (path : string) : M unit :=
  emit (EvRemove path) ;;
  let! s := get_fs in
  set_fs (s ∖ {[path]}).

Definition temp_path (output_video : string) : string :=
  output_video +:+ ".temp.mp4".

Definition ffmpeg_command (temp_output_video output_video : string) : string :=
  "ffmpeg -i " +:+ temp_output_video +:+
  " -c:v libx264 -crf 18 -preset slow " +:+ output_video +:+ " -y".

(** Lines 223-224. *)
Definition input_shape_of (first_frame : RawFrame) : list Z :=
  [1; Frame.height first_frame; Frame.width first_frame; 3].

Definition output_shape_of (input_shape : list Z) (vsr_scale : Z) : list Z :=
  [1; nth 1 input_shape 0 * vsr_scale; nth 2 input_shape 0 * vsr_scale; 3].

(** Lines 327-366: the session block. It returns [total_frames]. *)
Definition run_session (E : Env) (checkpoint : string)
    (video_reader : VideoReader) (input_shape output_shape : list Z) : M Z :=
  emit EvSessionInit ;;
  emit (EvRestore checkpoint) ;;
  let! total_frames := Py.len (reader_len video_reader) in
  let! '(_, _) :=
    frame_loop E (loop_bound video_reader) 0 video_reader
      (session_init input_shape output_shape) in
  ret total_frames.

(** Lines 368-380: release, re-encode, clean up, report. The closing
    report divides by [total_frames]. *)
Definition finish (E : Env) (temp_output_video output_video : string)
    (total_frames : Z) : M unit :=
  emit EvWriterRelease ;;
  system E (ffmpeg_command temp_output_video output_video) ;;
  let! files := get_fs in
  when (bool_decide (temp_output_video ∈ files)) (remove temp_output_video) ;;
  if total_frames =? 0 then raise ZeroDivisionError else ret tt.

Definition process_video (E : Env)
    (input_video output_video : string) (checkpoint_path : option string)
    (num_resblock vsr_scale : Z) (use_ema : bool)
    (start_frame end_frame : Z) (fps_flag : spec_float) : M unit :=
  match checkpoint_path with
  | None =>
      raise (ValueError
               "The checkpoint file is needed to perform super-resolution.")
  | Some checkpoint =>
      let! video_reader := reader_init E input_video start_frame end_frame in
      let! first_frame := probe_first_frame E input_video in
      let first_frame := Frame.reverse_channels first_frame in
      let input_shape := input_shape_of first_frame in
      let output_shape := output_shape_of input_shape vsr_scale in
      let oh := nth 1 input_shape 0 - nth 1 input_shape 0 / 8 * 8 in
      let ow := nth 2 input_shape 0 - nth 2 input_shape 0 / 8 * 8 in
      emit (EvBuildGraph input_shape output_shape
              [[0; 0]; [0; oh]; [0; ow]; [0; 0]] num_resblock vsr_scale) ;;
      match Restore.restore_vars_dict use_ema (trainable_variables E) with
      | None => beyond
      | Some restore_vars =>
          emit (EvSaver restore_vars) ;;
          let output_dir := PyStr.dirname output_video in
          let! files := get_fs in
          when (negb (String.eqb output_dir "")
                && negb (bool_decide (output_dir ∈ files)))
               (makedirs output_dir) ;;
          let output_fps :=
            if Py.float_is_zero fps_flag then fps video_reader else fps_flag in
          let output_width := nth 2 output_shape 0 in
          let output_height := nth 1 output_shape 0 in
          let temp_output_video := temp_path output_video in
          let! opened :=
            writer_open E temp_output_video output_fps
              (output_width, output_height) in
          if negb opened
          then raise (ValueError
                        ("Could not open video writer for: " +:+ output_video))
          else
            let! total_frames :=
              run_session E checkpoint video_reader input_shape output_shape in
            finish E temp_output_video output_video total_frames
      end
  end.

(** The run from a file system with an empty log. *)
Definition run (E : Env)
    (input_video output_video : string) (checkpoint_path : option string)
    (num_resblock vsr_scale : Z) (use_ema : bool)
    (start_frame end_frame : Z) (fps_flag : spec_float) (files : gset string)
  : outcome unit * World :=
  process_video E input_video output_video checkpoint_path num_resblock
    vsr_scale use_ema start_frame end_frame fps_flag
    {| fs := files; trace := [] |}.

(** ** Reading a trace *)

(** The steps of the frame loop, without their data. *)
Inductive Tag :=
| TRead
| TWarp (i : nat)
| TGenerate (i : nat)
| TWrite (i : nat).

Definition tag_of (e : Event) : option Tag :=
  match e with
  | EvCaptureRead ReaderCap (Some _) => Some TRead
  | EvRunBeforeOps i _ => Some (TWarp i)
  | EvRunOutputs i _ _ => Some (TGenerate i)
  | EvWriterWrite i _ => Some (TWrite i)
  | _ => None
  end.

Definition loop_shape (t : list Event) : list Tag := omap tag_of t.

(** The frames handed to [writer.write], with their loop index. *)
Definition written (t : list Event) : list (nat * Image) :=
  omap (fun e => match e with EvWriterWrite i img => Some (i, img) | _ => None end) t.

(** The fetches of [outputs]: loop index, fed tensor, fetched tensor. *)
Definition generated (t : list Event) : list (nat * Tensor * Tensor) :=
  omap (fun e => match e with
                 | EvRunOutputs i feed out => Some (i, feed, out)
                 | _ => None
                 end) t.

(** The tensors fed to the session, one per [sess.run], in order. *)
Definition fed (t : list Event) : list Tensor :=
  omap (fun e => match e with
                 | EvRunBeforeOps _ feed => Some feed
                 | EvRunOutputs _ feed _ => Some feed
                 | _ => None
                 end) t.

(** The frames the reader's capture decoded. *)
Definition frames_read (t : list Event) : list RawFrame :=
  omap (fun e => match e with
                 | EvCaptureRead ReaderCap (Some f) => Some f
                 | _ => None
                 end) t.

(** The session calls: which operation was fetched, for which frame. *)
Definition session_runs (t : list Event) : list Tag :=
  omap (fun e => match e with
                 | EvRunBeforeOps i _ => Some (TWarp i)
                 | EvRunOutputs i _ _ => Some (TGenerate i)
                 | _ => None
                 end) t.

(** What line 355-359 does with a fetched output. *)
Definition write_of (g : nat * Tensor * Tensor) : option (nat * Image) :=
  let '(i, _, out) := g in
  if (5 <=? i)%nat then Some (i, Frame.to_output out) else None.

Definition commands (t : list Event) : list string :=
  omap (fun e => match e with EvSystem c => Some c | _ => None end) t.

Definition graph_builds (t : list Event) : list (list Z * list Z) :=
  omap (fun e => match e with
                 | EvBuildGraph i o _ _ _ => Some (i, o)
                 | _ => None
                 end) t.

Definition writer_opens (t : list Event) : list (string * (Z * Z) * bool) :=
  omap (fun e => match e with
                 | EvWriterOpen p _ size ok => Some (p, size, ok)
                 | _ => None
                 end) t.

(** ** The log of a run, phase by phase *)

(** What the reader's stream still holds and the counter still allows:
    the raw frames [__next__] will decode. *)
Definition pending (r : VideoReader) : list RawFrame :=
  take (Z.to_nat (end_frame r - current_frame r))
       (drop (cap_pos (cap r)) (v_frames (cap_video (cap r)))).

(** The loop ends on the counter without a read, or on a read that fails. *)
Definition loop_tail (r : VideoReader) : list Event :=
  if (Z.to_nat (end_frame r - current_frame r)
      <=? length (drop (cap_pos (cap r)) (v_frames (cap_video (cap r)))))%nat
  then []
  else [EvCaptureRead ReaderCap None].

(** The session in which [outputs] is fetched for frame [i]. *)
Definition warped (E : Env) (i : nat) (s : Session) (feed : Tensor) : Session :=
  if Nat.eqb i 0 then s else run_before_ops E s feed.

Definition frame_events (E : Env) (i : nat) (raw : RawFrame) (s : Session)
  : list Event :=
  let feed := Frame.to_input (Frame.reverse_channels raw) in
  let out := fst (run_outputs E (warped E i s feed) feed) in
  (if Nat.eqb i 0 then [] else [EvRunBeforeOps i feed])
  ++ [EvRunOutputs i feed out]
  ++ (if (5 <=? i)%nat then [EvWriterWrite i (Frame.to_output out)] else []).

Definition frame_session (E : Env) (i : nat) (raw : RawFrame) (s : Session)
  : Session :=
  let feed := Frame.to_input (Frame.reverse_channels raw) in
  snd (run_outputs E (warped E i s feed) feed).

Fixpoint loop_events (E : Env) (i : nat) (s : Session) (raws : list RawFrame)
  : list Event :=
  match raws with
  | [] => []
  | raw :: rest =>
      EvCaptureRead ReaderCap (Some raw)
      :: frame_events E i raw s
      ++ loop_events E (S i) (frame_session E i raw s) rest
  end.

Definition frame_tags (i : nat) : list Tag :=
  [TRead]
  ++ (if Nat.eqb i 0 then [] else [TWarp i])
  ++ [TGenerate i]
  ++ (if (5 <=? i)%nat then [TWrite i] else []).

(** Lines 308-311: the output directory is created when the path has one
    and it does not exist. *)
Definition needs_makedirs (output_video : string) (files : gset string) : bool :=
  negb (String.eqb (PyStr.dirname output_video) "")
  && negb (bool_decide (PyStr.dirname output_video ∈ files)).

Definition files_with_dir (output_video : string) (files : gset string)
  : gset string :=
  if needs_makedirs output_video files
  then list_to_set (ancestors (S (String.length (PyStr.dirname output_video)))
                      (PyStr.dirname output_video)) ∪ files
  else files.

(** The paths that exist when the session starts. *)
Definition files_at_loop (output_video : string) (files : gset string)
  : gset string :=
  {[temp_path output_video]} ∪ files_with_dir output_video files.

(** The log up to the writer's opening, [opened] being its outcome. *)
Definition setup_events (input_video output_video : string)
    (num_resblock vsr_scale start_frame : Z) (fps_flag : spec_float)
    (files : gset string) (v : Video) (first : RawFrame)
    (restore_vars : RestoreSpec) (opened : bool) : list Event :=
  let h := Frame.height first in
  let w := Frame.width first in
  [EvCaptureOpen ReaderCap input_video true]
  ++ (if 0 <? start_frame then [EvCaptureSeek ReaderCap start_frame] else [])
  ++ [EvCaptureOpen ProbeCap input_video true;
      EvCaptureRead ProbeCap (Some first);
      EvCaptureRelease ProbeCap;
      EvBuildGraph [1; h; w; 3] [1; h * vsr_scale; w * vsr_scale; 3]
        [[0; 0]; [0; h - h / 8 * 8]; [0; w - w / 8 * 8]; [0; 0]]
        num_resblock vsr_scale;
      EvSaver restore_vars]
  ++ (if needs_makedirs output_video files
      then [EvMakedirs (PyStr.dirname output_video)] else [])
  ++ [EvWriterOpen (temp_path output_video)
        (if Py.float_is_zero fps_flag then v_fps v else fps_flag)
        (w * vsr_scale, h * vsr_scale) opened].

(** The log of the session block. *)
Definition session_events (E : Env) (checkpoint : string) (r : VideoReader)
    (input_shape output_shape : list Z) : list Event :=
  [EvSessionInit; EvRestore checkpoint]
  ++ loop_events E 0 (session_init input_shape output_shape) (pending r)
  ++ loop_tail r.

(** The log after the loop, from the paths that exist at that point. *)
Definition teardown_events (E : Env) (output_video : string)
    (files : gset string) : list Event :=
  let temp := temp_path output_video in
  [EvWriterRelease; EvSystem (ffmpeg_command temp output_video)]
  ++ (if bool_decide (temp ∈ os_system E (ffmpeg_command temp output_video) files)
      then [EvRemove temp] else []).

(** The conditions under which [process_video] gets as far as its frame
    loop: a checkpoint path, an input that opens and has a first frame,
    variable names within the modelled pattern fragment, a writer that
    opens, and a reader length that [len] accepts. *)
Record Ready (E : Env) (input_video output_video : string)
    (checkpoint_path : option string) (use_ema : bool)
    (start_frame end_frame : Z) (v : Video) (first : RawFrame) : Prop := {
  ready_checkpoint : is_Some checkpoint_path;
  ready_video : videos E input_video = Some v;
  ready_first : v_frames v !! 0%nat = Some first;
  ready_restore :
    is_Some (Restore.restore_vars_dict use_ema (trainable_variables E));
  ready_writer : writer_can_open E (temp_path output_video) = true;
  ready_len :
    0 <= reader_len (reader_opened input_video v start_frame end_frame)
      <= Py.maxsize
}.

(** ** Sample inputs *)

Module Sample.

(** Seven decodable 1x1 frames in a container that announces eight. *)
Definition clip7 : Video :=
  {| v_fps := S754_zero false; v_frame_count := 8; v_width := 1; v_height := 1;
     v_frames := map (fun k => [[[k; k + 1; k + 2]]]) [10; 20; 30; 40; 50; 60; 70] |}.

Definition weight : TFVariable :=
  {| var_name := "generator/conv/kernel:0"; var_trainable := true |}.

Definition global_step : TFVariable :=
  {| var_name := "global_step:0"; var_trainable := true |}.

(** A graph that echoes its input, a writer that opens everywhere, and an
    encoder that creates the file named [out.mp4]. *)
Definition env : Env :=
  {| videos := fun p => if String.eqb p "in.mp4" then Some clip7 else None;
     writer_can_open := fun _ => true;
     os_system := fun _ s => {["out.mp4"]} ∪ s;
     generator_net := fun a _ => a;
     warp_net := fun _ _ c => c;
     trainable_variables := [weight] |}.

(** The same with a writer that never opens. *)
Definition env_no_writer : Env :=
  {| videos := videos env;
     writer_can_open := fun _ => false;
     os_system := os_system env;
     generator_net := generator_net env;
     warp_net := warp_net env;
     trainable_variables := trainable_variables env |}.

(** The same with a container that opens and decodes nothing. *)
Definition env_empty_video : Env :=
  {| videos := fun _ => Some {| v_fps := S754_zero false; v_frame_count := 0;
                                v_width := 0; v_height := 0; v_frames := [] |};
     writer_can_open := writer_can_open env;
     os_system := os_system env;
     generator_net := generator_net env;
     warp_net := warp_net env;
     trainable_variables := trainable_variables env |}.

End Sample.

(** ** The rest of the file *)

(** *** The restore map, entry by entry *)

(** The entry line 295 makes for a variable. *)
Definition ema_entry (v : TFVariable) : string * TFVariable :=
  (PyStr.drop_last2 (var_name v) +:+ Restore.ema_suffix, v).

(** *** _get_ema_vars *)

#[global] Instance TFVariable_countable : Countable TFVariable.
Proof.
  refine (inj_countable' (fun v => (var_name v, var_trainable v))
            (fun p => {| var_name := p.1; var_trainable := p.2 |}) _).
  by intros [].
Defined.

Module Ema.

(** [needle in s] on strings. *)
Fixpoint contains (needle s : string) : bool :=
  String.prefix needle s
  || match s with
     | EmptyString => false
     | String _ rest => contains needle rest
     end.

(** The test of line 122. *)
Definition is_moving_stat (v : TFVariable) : bool :=
  contains "moving_mean" (var_name v) || contains "moving_variance" (var_name v).

(** [_get_ema_vars], from the three graph collections it reads:
    [tf.trainable_variables()], [tf.get_collection('moving_vars')] and
    [tf.global_variables()]. The result is [list(set(ema_vars))]: the
    elements of a set, in an order Python does not fix; it is the set
    here. *)
Definition get_ema_vars (trainable moving_vars global_vars : list TFVariable)
  : gset TFVariable :=
  list_to_set
    (trainable ++ moving_vars ++ List.filter is_moving_stat global_vars).

End Ema.

(** *** gaussian_filter2d: the geometry of the kernel *)

Module Gauss.

(** The float64 literal [4] of [sigma * 4]. *)
Definition four : spec_float := binary_normalize 53 1024 4 0 false.

(** [int(x)] on a float: the integer part; [None] where Python raises
    (NaN and the infinities). *)
Definition py_int (x : spec_float) : option Z := F32.trunc x.

(** Line 130: [size = int(sigma * 4) * 2 + 1]. *)
Definition kernel_size (sigma : spec_float) : option Z :=
  match py_int (SFmul 53 1024 sigma four) with
  | Some k => Some (k * 2 + 1)
  | None => None
  end.

(** [range(a, b)] *)
Definition py_range (a b : Z) : list Z :=
  map (fun i => a + Z.of_nat i) (seq 0 (Z.to_nat (b - a))).

(** Line 133: [tf.range(-size // 2 + 1, size // 2 + 1)]; the unary minus
    binds tighter than the floor division. *)
Definition taps (size : Z) : list Z :=
  py_range ((- size) / 2 + 1) (size / 2 + 1).

(** Line 143: the rows and columns added on each side before the
    convolution. *)
Definition pad (size : Z) : Z := size / 2.

End Gauss.

(** *** dense_image_warp: the four pixels around a position *)

Module Warp.

(** An [int32] sum, wrapping around. *)
Definition wrap32 (z : Z) : Z := (z + 2 ^ 31) mod 2 ^ 32 - 2 ^ 31.

(** Lines 166-168, for one position: from the top-left pixel (row,
    column), the bottom-right one, clamped to the last row and column,
    and the two mixed ones. The result is top-left, top-right,
    bottom-left, bottom-right. *)
Definition corners (height width : Z) (top_left : Z * Z)
  : (Z * Z) * (Z * Z) * (Z * Z) * (Z * Z) :=
  let pos_bottom_right :=
    (Z.min (wrap32 (fst top_left + 1)) (height - 1),
     Z.min (wrap32 (snd top_left + 1)) (width - 1)) in
  let pos_top_right := (fst top_left, snd pos_bottom_right) in
  let pos_bottom_left := (fst pos_bottom_right, snd top_left) in
  (top_left, pos_top_right, pos_bottom_left, pos_bottom_right).

(** What [tf.gather_nd] needs of a (row, column) index. *)
Definition in_image (height width : Z) (p : Z * Z) : Prop :=
  0 <= fst p < height /\ 0 <= snd p < width.

End Warp.

(** *** main *)

(** The command-line flags, with the types absl gives them; a string flag
    that was not passed is [None]. *)
Record Flags := {
  flag_input_video : option string;
  flag_output_video : option string;
  flag_checkpoint_path : option string;
  flag_num_resblock : Z;
  flag_vsr_scale : Z;
  flag_use_ema : bool;
  flag_start_frame : Z;
  flag_end_frame : Z;
  flag_fps : spec_float
}.

(** The defaults of lines 50-62. *)
Definition default_flags : Flags :=
  {| flag_input_video := None;
     flag_output_video := None;
     flag_checkpoint_path := None;
     flag_num_resblock := 10;
     flag_vsr_scale := 4;
     flag_use_ema := true;
     flag_start_frame := 0;
     flag_end_frame := -1;
     flag_fps := S754_zero false |}.

(** [not flag] on a string flag: true on [None] and on the empty string. *)
Definition unset (flag : option string) : bool :=
  match flag with
  | None => true
  | Some s => String.eqb s ""
  end.

(** [main] *)
Definition main (E : Env) (F : Flags) : M unit :=
  if unset (flag_input_video F)
  then raise (ValueError "--input_video is required")
  else if unset (flag_output_video F)
  then raise (ValueError "--output_video is required")
  else if unset (flag_checkpoint_path F)
  then raise (ValueError "--checkpoint_path is required")
  else
    process_video E
      (default "" (flag_input_video F)) (default "" (flag_output_video F))
      (flag_checkpoint_path F) (flag_num_resblock F) (flag_vsr_scale F)
      (flag_use_ema F) (flag_start_frame F) (flag_end_frame F) (flag_fps F).

(** Flags for the sample run. *)
Definition sample_flags : Flags :=
  {| flag_input_video := Some "in.mp4";
     flag_output_video := Some "out.mp4";
     flag_checkpoint_path := Some "ckpt";
     flag_num_resblock := 10;
     flag_vsr_scale := 4;
     flag_use_ema := true;
     flag_start_frame := 0;
     flag_end_frame := -1;
     flag_fps := S754_zero false |}.

(** * Facts *)

(** ** Strings *)

Lemma to_list_app (a b : string) :
  PyStr.to_list (a +:+ b) = PyStr.to_list a ++ PyStr.to_list b.
Proof. induction a as [|c a IH]; simpl; [done|by rewrite IH]. Qed.

Lemma to_list_inj (a b : string) : PyStr.to_list a = PyStr.to_list b -> a = b.
Proof.
  revert b. induction a as [|c a IH]; intros [|d b] H; simpl in H;
    try done. injection H as -> H. f_equal. by apply IH.
Qed.

Lemma append_cancel_r (a b suffix : string) :
  a +:+ suffix = b +:+ suffix -> a = b.
Proof.
  intros H. apply to_list_inj.
  apply (f_equal PyStr.to_list) in H. rewrite !to_list_app in H.
  by apply app_inv_tail in H.
Qed.

(** ** The restore map *)

Lemma match_prefix_chars (p s : list ascii) :
  PyRe.match_prefix p s = true ->
  forall c, In c p -> c = "."%char \/ In c s.
Proof.
  revert s. induction p as [|a p IH]; intros s Hm c Hc; [destruct Hc|].
  destruct s as [|b s]; [discriminate|].
  simpl in Hm. apply andb_prop in Hm as [Ha Hp].
  destruct Hc as [<-|Hc].
  - unfold PyRe.atom_matches in Ha.
    destruct (Ascii.eqb a ".") eqn:Hdot.
    + left. by apply Ascii.eqb_eq.
    + right. left. symmetry. by apply Ascii.eqb_eq.
  - destruct (IH s Hp c Hc) as [->|Hin]; [by left|right; by right].
Qed.

(** A name that carries a colon, as every graph variable's does
    ([scope/name:0]), never takes the global-step branch: the subject
    string of the call holds no colon for it to match. *)
Lemma restore_key_colon (v : TFVariable) :
  PyRe.in_fragment (var_name v) = true ->
  In ":"%char (PyStr.to_list (var_name v)) ->
  Restore.restore_key v
  = Some (PyStr.drop_last2 (var_name v) +:+ Restore.ema_suffix).
Proof.
  intros Hf Hc. unfold Restore.restore_key, PyRe.re_match. rewrite Hf.
  destruct (PyRe.match_prefix _ _) eqn:Hm; [|done].
  destruct (match_prefix_chars _ _ Hm _ Hc) as [Hdot|Hin]; [discriminate|].
  exfalso. vm_compute in Hin.
  repeat (destruct Hin as [Hin|Hin]; [discriminate Hin|]). destruct Hin.
Qed.

Lemma fill_dict_lookup (vars : list TFVariable) :
  forall (d : gmap string TFVariable),
  Forall (fun v => PyRe.in_fragment (var_name v) = true
                   /\ In ":"%char (PyStr.to_list (var_name v))) vars ->
  exists d',
    Restore.fill_dict vars d = Some d'
    /\ (forall k,
          k ∉ map (fun v => PyStr.drop_last2 (var_name v) +:+ Restore.ema_suffix)
                vars ->
          d' !! k = d !! k)
    /\ (NoDup (map (fun v => PyStr.drop_last2 (var_name v)) vars) ->
        forall v, v ∈ vars ->
          d' !! (PyStr.drop_last2 (var_name v) +:+ Restore.ema_suffix) = Some v).
Proof.
  induction vars as [|v vars IH]; intros d Hall.
  - exists d. split; [done|]. split; [done|]. intros _ v Hv. inversion Hv.
  - inversion Hall as [|? ? [Hf Hc] Hrest]; subst.
    simpl. rewrite (restore_key_colon v Hf Hc).
    destruct (IH (<[PyStr.drop_last2 (var_name v) +:+ Restore.ema_suffix := v]> d)
                Hrest) as (d' & Hd' & Hother & Hin).
    exists d'. split; [done|]. split.
    + intros k Hk. rewrite Hother.
      * apply lookup_insert_ne. intros <-. apply Hk. simpl. left.
      * intros Hk'. apply Hk. simpl. by right.
    + intros Hnd u Hu. inversion Hnd as [|? ? Hnotin Hnd']; subst.
      apply elem_of_cons in Hu as [->|Hu].
      * rewrite Hother; [apply lookup_insert_eq|].
        intros Hk. apply list_elem_of_fmap in Hk as (u & Heq & Hu).
        apply Hnotin. apply list_elem_of_fmap. exists u. split; [|done].
        symmetry. by apply append_cancel_r in Heq.
      * by apply Hin.
Qed.


(** ** VideoReader *)


(** [__next__] when it yields: the frame under the cursor, channels
    reversed, and the cursor and the counter one further. *)
Lemma reader_next_yield (r : VideoReader) (w : World) (raw : RawFrame) :
  current_frame r < end_frame r ->
  v_frames (cap_video (cap r)) !! cap_pos (cap r) = Some raw ->
  reader_next r w
  = (Return (Yield (Frame.reverse_channels raw)
               (reader_advance r {| cap_video := cap_video (cap r);
                                    cap_pos := S (cap_pos (cap r)) |})),
     {| fs := fs w; trace := trace w ++ [EvCaptureRead ReaderCap (Some raw)] |}).
Proof.
  intros Hlt Hl. unfold reader_next, Cap.read.
  replace (end_frame r <=? current_frame r) with false by lia.
  by rewrite Hl.
Qed.

Lemma reader_next_end (r : VideoReader) (w : World) :
  end_frame r <= current_frame r ->
  reader_next r w = (Return StopIteration, w).
Proof.
  intros H. unfold reader_next.
  by replace (end_frame r <=? current_frame r) with true by lia.
Qed.

Lemma reader_next_eof (r : VideoReader) (w : World) :
  current_frame r < end_frame r ->
  v_frames (cap_video (cap r)) !! cap_pos (cap r) = None ->
  reader_next r w
  = (Return StopIteration,
     {| fs := fs w; trace := trace w ++ [EvCaptureRead ReaderCap None] |}).
Proof.
  intros Hlt Hl. unfold reader_next, Cap.read.
  replace (end_frame r <=? current_frame r) with false by lia.
  by rewrite Hl.
Qed.

Lemma pending_end (r : VideoReader) :
  end_frame r <= current_frame r -> pending r = [].
Proof.
  intros H. unfold pending.
  by replace (Z.to_nat (end_frame r - current_frame r)) with 0%nat by lia.
Qed.

Lemma pending_eof (r : VideoReader) :
  v_frames (cap_video (cap r)) !! cap_pos (cap r) = None -> pending r = [].
Proof.
  intros H. unfold pending. apply lookup_ge_None in H.
  rewrite drop_ge; [|done]. by rewrite take_nil.
Qed.

Lemma pending_yield (r : VideoReader) (raw : RawFrame) :
  current_frame r < end_frame r ->
  v_frames (cap_video (cap r)) !! cap_pos (cap r) = Some raw ->
  pending r
  = raw :: pending (reader_advance r {| cap_video := cap_video (cap r);
                                        cap_pos := S (cap_pos (cap r)) |}).
Proof.
  intros Hlt Hl. unfold pending. simpl.
  rewrite (drop_S _ _ _ Hl).
  replace (Z.to_nat (end_frame r - current_frame r))
    with (S (Z.to_nat (end_frame r - (current_frame r + 1)))) by lia.
  done.
Qed.

(** [list(reader)] is the pending frames, channels reversed. *)
Lemma reader_frames_pending (fuel : nat) :
  forall r, (loop_bound r <= fuel)%nat ->
  reader_frames fuel r = map Frame.reverse_channels (pending r).
Proof.
  induction fuel as [|fuel IH]; intros r Hb; [unfold loop_bound in Hb; lia|].
  simpl.
  destruct (Z_lt_le_dec (current_frame r) (end_frame r)) as [Hlt|Hge].
  - destruct (v_frames (cap_video (cap r)) !! cap_pos (cap r)) as [raw|] eqn:Hl.
    + rewrite (reader_next_yield r _ raw Hlt Hl). simpl.
      rewrite (pending_yield r raw Hlt Hl). simpl. f_equal.
      apply IH. apply lookup_lt_Some in Hl.
      unfold loop_bound in *. simpl. lia.
    + rewrite (reader_next_eof r _ Hlt Hl). simpl. by rewrite pending_eof.
  - rewrite (reader_next_end r _ Hge). simpl. by rewrite pending_end.
Qed.

Lemma yielded_pending (r : VideoReader) :
  yielded r = map Frame.reverse_channels (pending r).
Proof. by apply reader_frames_pending. Qed.





(** ** The monad *)

Lemma trace_emit (e : Event) (w : World) :
  emit e w = (Return tt, {| fs := fs w; trace := trace w ++ [e] |}).
Proof. reflexivity. Qed.

(** ** The frame loop *)

Lemma frame_body_run (E : Env) (i : nat) (raw : RawFrame) (s : Session)
    (w : World) :
  frame_body E i (Frame.reverse_channels raw) s w
  = (Return (frame_session E i raw s),
     {| fs := fs w; trace := trace w ++ frame_events E i raw s |}).
Proof.
  unfold frame_body, frame_session, frame_events, warped, bind, when, emit, ret.
  destruct (Nat.eqb i 0), (5 <=? i)%nat; simpl;
    rewrite <- ?app_assoc, ?app_nil_r; done.
Qed.

Lemma loop_tail_end (r : VideoReader) :
  end_frame r <= current_frame r -> loop_tail r = [].
Proof.
  intros H. unfold loop_tail.
  by replace (Z.to_nat (end_frame r - current_frame r)) with 0%nat by lia.
Qed.

Lemma loop_tail_eof (r : VideoReader) :
  current_frame r < end_frame r ->
  v_frames (cap_video (cap r)) !! cap_pos (cap r) = None ->
  loop_tail r = [EvCaptureRead ReaderCap None].
Proof.
  intros Hlt H. unfold loop_tail. apply lookup_ge_None in H.
  rewrite drop_ge; [|done]. simpl.
  destruct (Z.to_nat (end_frame r - current_frame r)) eqn:Hn; [lia|done].
Qed.

Lemma loop_tail_yield (r : VideoReader) (raw : RawFrame) :
  current_frame r < end_frame r ->
  v_frames (cap_video (cap r)) !! cap_pos (cap r) = Some raw ->
  loop_tail r
  = loop_tail (reader_advance r {| cap_video := cap_video (cap r);
                                   cap_pos := S (cap_pos (cap r)) |}).
Proof.
  intros Hlt Hl. unfold loop_tail. simpl.
  rewrite (drop_S _ _ _ Hl). simpl.
  replace (Z.to_nat (end_frame r - current_frame r))
    with (S (Z.to_nat (end_frame r - (current_frame r + 1)))) by lia.
  done.
Qed.

(** The loop always ends on [StopIteration], and its log is the blocks of
    the pending frames, one after the other, then the failed read if the
    stream ran out first. *)
Lemma frame_loop_runs (E : Env) (fuel : nat) :
  forall (i : nat) (r : VideoReader) (s : Session) (w : World),
  (loop_bound r <= fuel)%nat ->
  exists res,
    frame_loop E fuel i r s w
    = (Return res,
       {| fs := fs w;
          trace := trace w ++ loop_events E i s (pending r) ++ loop_tail r |}).
Proof.
  induction fuel as [|fuel IH]; intros i r s w Hb;
    [unfold loop_bound in Hb; lia|].
  simpl. unfold bind at 1.
  destruct (Z_lt_le_dec (current_frame r) (end_frame r)) as [Hlt|Hge].
  - destruct (v_frames (cap_video (cap r)) !! cap_pos (cap r)) as [raw|] eqn:Hl.
    + rewrite (reader_next_yield r _ raw Hlt Hl).
      unfold bind at 1. rewrite frame_body_run.
      rewrite (pending_yield r raw Hlt Hl), (loop_tail_yield r raw Hlt Hl).
      edestruct (IH (S i)) as [res Hres]; [|rewrite Hres].
      { apply lookup_lt_Some in Hl. unfold loop_bound in *. simpl. lia. }
      exists res. simpl. by rewrite <- !app_assoc.
    + rewrite (reader_next_eof r _ Hlt Hl). exists (r, s).
      by rewrite pending_eof, loop_tail_eof.
  - rewrite (reader_next_end r _ Hge). exists (r, s).
    rewrite pending_end, loop_tail_end by done. simpl.
    rewrite app_nil_r. by destruct w.
Qed.

(** ** process_video, phase by phase *)

Lemma reader_init_runs (E : Env) (path : string) (v : Video) (s e : Z)
    (w : World) :
  videos E path = Some v ->
  reader_init E path s e w
  = (Return (reader_opened path v s e),
     {| fs := fs w;
        trace := trace w
                 ++ [EvCaptureOpen ReaderCap path true]
                 ++ (if 0 <? s then [EvCaptureSeek ReaderCap s] else []) |}).
Proof.
  intros Hv. unfold reader_init, reader_opened. rewrite Hv.
  destruct (0 <? s); simpl; unfold bind, emit, ret; simpl.
  - by rewrite <- app_assoc.
  - done.
Qed.

Lemma probe_first_frame_runs (E : Env) (path : string) (v : Video)
    (first : RawFrame) (w : World) :
  videos E path = Some v ->
  v_frames v !! 0%nat = Some first ->
  probe_first_frame E path w
  = (Return first,
     {| fs := fs w;
        trace := trace w
                 ++ [EvCaptureOpen ProbeCap path true;
                     EvCaptureRead ProbeCap (Some first);
                     EvCaptureRelease ProbeCap] |}).
Proof.
  intros Hv Hf. unfold probe_first_frame, Cap.read. rewrite Hv. simpl.
  rewrite Hf. unfold bind, emit, ret. simpl. by rewrite <- !app_assoc.
Qed.

Lemma run_session_runs (E : Env) (checkpoint : string) (r : VideoReader)
    (input_shape output_shape : list Z) (w : World) :
  0 <= reader_len r <= Py.maxsize ->
  run_session E checkpoint r input_shape output_shape w
  = (Return (reader_len r),
     {| fs := fs w;
        trace := trace w
                 ++ session_events E checkpoint r input_shape output_shape |}).
Proof.
  intros Hlen. unfold run_session, session_events, Py.len.
  replace (reader_len r <? 0) with false by lia.
  replace (Py.maxsize <? reader_len r) with false by lia.
  unfold bind, emit, ret. cbv beta iota.
  edestruct (frame_loop_runs E (loop_bound r) 0 r) as [[r' s'] Hres];
    [done|rewrite Hres].
  simpl. by rewrite <- !app_assoc.
Qed.

Lemma finish_runs (E : Env) (output_video : string) (total_frames : Z)
    (w : World) :
  finish E (temp_path output_video) output_video total_frames w
  = (if total_frames =? 0 then Raise ZeroDivisionError else Return tt,
     {| fs := os_system E (ffmpeg_command (temp_path output_video) output_video)
                (fs w) ∖ {[temp_path output_video]};
        trace := trace w ++ teardown_events E output_video (fs w) |}).
Proof.
  unfold finish, teardown_events, system, remove, when.
  unfold bind, emit, get_fs, set_fs, ret, raise. simpl.
  case_bool_decide as Hin; simpl.
  - rewrite <- !app_assoc. simpl. by destruct (total_frames =? 0).
  - rewrite <- !app_assoc. simpl.
    rewrite difference_disjoint_L by (by apply disjoint_singleton_r).
    by destruct (total_frames =? 0).
Qed.

(** ** Reading the log of the loop *)

Lemma loop_events_cons (E : Env) (i : nat) (s : Session) (raw : RawFrame)
    (rest : list RawFrame) :
  loop_events E i s (raw :: rest)
  = [EvCaptureRead ReaderCap (Some raw)]
    ++ frame_events E i raw s
    ++ loop_events E (S i) (frame_session E i raw s) rest.
Proof. reflexivity. Qed.

Lemma loop_shape_frame (E : Env) (i : nat) (raw : RawFrame) (s : Session) :
  loop_shape ([EvCaptureRead ReaderCap (Some raw)] ++ frame_events E i raw s)
  = frame_tags i.
Proof.
  unfold loop_shape, frame_events, frame_tags.
  by destruct (Nat.eqb i 0), (5 <=? i)%nat.
Qed.

Lemma loop_shape_loop (E : Env) (raws : list RawFrame) :
  forall i s,
  loop_shape (loop_events E i s raws) = flat_map frame_tags (seq i (length raws)).
Proof.
  induction raws as [|raw rest IH]; intros i s; [done|].
  rewrite loop_events_cons, app_assoc. unfold loop_shape.
  rewrite omap_app.
  fold (loop_shape (loop_events E (S i) (frame_session E i raw s) rest)).
  rewrite IH. cbn [length seq flat_map].
  by rewrite <- (loop_shape_frame E i raw s).
Qed.

Lemma session_runs_loop (E : Env) (raws : list RawFrame) :
  forall i s,
  session_runs (loop_events E i s raws)
  = flat_map (fun i => if Nat.eqb i 0 then [TGenerate i] else [TWarp i; TGenerate i])
             (seq i (length raws)).
Proof.
  induction raws as [|raw rest IH]; intros i s; [done|].
  rewrite loop_events_cons. unfold session_runs. rewrite !omap_app.
  fold (session_runs (loop_events E (S i) (frame_session E i raw s) rest)).
  rewrite IH. simpl. unfold frame_events.
  by destruct (Nat.eqb i 0), (5 <=? i)%nat.
Qed.

Lemma frames_read_loop (E : Env) (raws : list RawFrame) :
  forall i s, frames_read (loop_events E i s raws) = raws.
Proof.
  induction raws as [|raw rest IH]; intros i s; [done|].
  rewrite loop_events_cons. unfold frames_read. rewrite !omap_app.
  fold (frames_read (loop_events E (S i) (frame_session E i raw s) rest)).
  rewrite IH. simpl. unfold frame_events.
  by destruct (Nat.eqb i 0), (5 <=? i)%nat.
Qed.

(** The fetches of [outputs] over the loop: frame by frame, the index, the
    normalised frame, and the generator applied to it and to the warp
    state the session holds at that point. *)
Lemma generated_loop_cons (E : Env) (i : nat) (s : Session) (raw : RawFrame)
    (rest : list RawFrame) :
  let feed := Frame.to_input (Frame.reverse_channels raw) in
  generated (loop_events E i s (raw :: rest))
  = (i, feed, generator_net E feed (pre_warp (warped E i s feed)))
    :: generated (loop_events E (S i) (frame_session E i raw s) rest).
Proof.
  intros feed. rewrite loop_events_cons. unfold generated. rewrite !omap_app.
  simpl. unfold frame_events. fold feed.
  by destruct (Nat.eqb i 0), (5 <=? i)%nat.
Qed.

Lemma generated_loop_index (E : Env) (raws : list RawFrame) :
  forall i s,
  map (fun g => fst (fst g)) (generated (loop_events E i s raws))
  = seq i (length raws).
Proof.
  induction raws as [|raw rest IH]; intros i s; [done|].
  rewrite generated_loop_cons. simpl. by rewrite IH.
Qed.

Lemma generated_loop_feed (E : Env) (raws : list RawFrame) :
  forall i s,
  map (fun g => snd (fst g)) (generated (loop_events E i s raws))
  = map (fun raw => Frame.to_input (Frame.reverse_channels raw)) raws.
Proof.
  induction raws as [|raw rest IH]; intros i s; [done|].
  rewrite generated_loop_cons. simpl. by rewrite IH.
Qed.

(** Each fetch after the first sees the warp of what the previous fetch
    left behind: its output and its input. *)
Lemma generated_loop_chain (E : Env) (raws : list RawFrame) :
  forall i s k a b,
  generated (loop_events E i s raws) !! k = Some a ->
  generated (loop_events E i s raws) !! S k = Some b ->
  snd b = generator_net E (snd (fst b))
            (warp_net E (snd a) (snd (fst a)) (snd (fst b))).
Proof.
  induction raws as [|raw rest IH]; intros i s k a b Ha Hb; [done|].
  rewrite generated_loop_cons in Ha, Hb. cbv zeta in Ha, Hb.
  destruct k as [|k].
  - simpl in Ha, Hb. injection Ha as <-.
    destruct rest as [|raw2 rest]; [done|].
    rewrite generated_loop_cons in Hb. simpl in Hb. injection Hb as <-.
    reflexivity.
  - simpl in Ha, Hb. by eapply IH.
Qed.

(** The writes are the fetched outputs of index 5 and more, converted, in
    the order they were fetched. *)
Lemma written_loop (E : Env) (raws : list RawFrame) :
  forall i s,
  written (loop_events E i s raws)
  = omap write_of (generated (loop_events E i s raws)).
Proof.
  induction raws as [|raw rest IH]; intros i s; [done|].
  rewrite generated_loop_cons. cbv zeta.
  rewrite loop_events_cons. unfold written at 1. rewrite !omap_app.
  fold (written (loop_events E (S i) (frame_session E i raw s) rest)).
  rewrite IH. unfold frame_events, warped.
  cbn [omap list_omap write_of app].
  destruct (Nat.eqb i 0), (5 <=? i)%nat; reflexivity.
Qed.

Lemma written_loop_index (E : Env) (raws : list RawFrame) :
  forall i s,
  map fst (written (loop_events E i s raws))
  = seq (Nat.max i 5) (i + length raws - Nat.max i 5).
Proof.
  induction raws as [|raw rest IH]; intros i s.
  - simpl. by replace (i + 0 - Nat.max i 5)%nat with 0%nat by lia.
  - rewrite written_loop, generated_loop_cons. cbv zeta.
    cbn [omap list_omap write_of length].
    rewrite <- written_loop.
    destruct (5 <=? i)%nat eqn:Hi.
    + apply Nat.leb_le in Hi. cbn [map fst]. rewrite IH.
      replace (Nat.max (S i) 5) with (S i) by lia.
      replace (Nat.max i 5) with i by lia.
      replace (i + S (length rest) - i)%nat with (S (length rest)) by lia.
      cbn [seq]. f_equal. f_equal. lia.
    + apply Nat.leb_gt in Hi. rewrite IH.
      replace (Nat.max (S i) 5) with 5%nat by lia.
      replace (Nat.max i 5) with 5%nat by lia.
      f_equal. lia.
Qed.

Lemma fed_loop (E : Env) (raws : list RawFrame) :
  forall i s,
  Forall (fun feed => exists raw,
            raw ∈ raws /\ feed = Frame.to_input (Frame.reverse_channels raw))
         (fed (loop_events E i s raws)).
Proof.
  induction raws as [|raw rest IH]; intros i s; [constructor|].
  rewrite loop_events_cons. unfold fed. rewrite !omap_app.
  apply Forall_app. split; [constructor|]. apply Forall_app. split.
  - unfold frame_events.
    destruct (Nat.eqb i 0), (5 <=? i)%nat; simpl;
      repeat constructor; exists raw; split; try done; by left.
  - eapply Forall_impl; [apply (IH (S i))|].
    intros feed (raw' & Hin & ->). exists raw'. split; [by right|done].
Qed.

Lemma setup_quiet (input_video output_video : string)
    (num_resblock vsr_scale start_frame : Z) (fps_flag : spec_float)
    (files : gset string) (v : Video) (first : RawFrame)
    (restore_vars : RestoreSpec) (opened : bool) :
  let t := setup_events input_video output_video num_resblock vsr_scale
             start_frame fps_flag files v first restore_vars opened in
  loop_shape t = [] /\ session_runs t = [] /\ frames_read t = []
  /\ generated t = [] /\ written t = [] /\ fed t = [] /\ commands t = []
  /\ graph_builds t
     = [([1; Frame.height first; Frame.width first; 3],
         [1; Frame.height first * vsr_scale; Frame.width first * vsr_scale; 3])]
  /\ writer_opens t
     = [(temp_path output_video,
         (Frame.width first * vsr_scale, Frame.height first * vsr_scale),
         opened)].
Proof.
  unfold setup_events.
  destruct (0 <? start_frame), (needs_makedirs output_video files);
    repeat split; reflexivity.
Qed.

Lemma loop_tail_quiet (r : VideoReader) :
  loop_shape (loop_tail r) = [] /\ session_runs (loop_tail r) = []
  /\ frames_read (loop_tail r) = [] /\ generated (loop_tail r) = []
  /\ written (loop_tail r) = [] /\ fed (loop_tail r) = []
  /\ commands (loop_tail r) = [] /\ graph_builds (loop_tail r) = []
  /\ writer_opens (loop_tail r) = [].
Proof. unfold loop_tail. destruct (_ <=? _)%nat; repeat split; reflexivity. Qed.

Lemma teardown_quiet (E : Env) (output_video : string) (files : gset string) :
  let t := teardown_events E output_video files in
  loop_shape t = [] /\ session_runs t = [] /\ frames_read t = []
  /\ generated t = [] /\ written t = [] /\ fed t = []
  /\ commands t = [ffmpeg_command (temp_path output_video) output_video]
  /\ graph_builds t = [] /\ writer_opens t = [].
Proof.
  unfold teardown_events. case_bool_decide; repeat split; reflexivity.
Qed.

Lemma loop_events_quiet (E : Env) (raws : list RawFrame) :
  forall i s,
  commands (loop_events E i s raws) = []
  /\ graph_builds (loop_events E i s raws) = []
  /\ writer_opens (loop_events E i s raws) = [].
Proof.
  induction raws as [|raw rest IH]; intros i s; [done|].
  rewrite loop_events_cons.
  unfold commands, graph_builds, writer_opens. rewrite !omap_app.
  destruct (IH (S i) (frame_session E i raw s)) as (H1 & H2 & H3).
  unfold commands, graph_builds, writer_opens in H1, H2, H3.
  rewrite H1, H2, H3. unfold frame_events.
  destruct (Nat.eqb i 0), (5 <=? i)%nat; repeat split; reflexivity.
Qed.

(** How each reading of the log splits over the three phases of a run. *)
Lemma session_events_read (E : Env) (checkpoint : string) (r : VideoReader)
    (ishape oshape : list Z) :
  let t := session_events E checkpoint r ishape oshape in
  let loop := loop_events E 0 (session_init ishape oshape) (pending r) in
  loop_shape t = loop_shape loop /\ session_runs t = session_runs loop
  /\ frames_read t = frames_read loop /\ generated t = generated loop
  /\ written t = written loop /\ fed t = fed loop
  /\ commands t = [] /\ graph_builds t = [] /\ writer_opens t = [].
Proof.
  intros t loop. unfold t, session_events.
  destruct (loop_tail_quiet r) as (T1 & T2 & T3 & T4 & T5 & T6 & T7 & T8 & T9).
  destruct (loop_events_quiet E (pending r) 0 (session_init ishape oshape))
    as (L1 & L2 & L3).
  unfold loop_shape, session_runs, frames_read, generated, written, fed,
    commands, graph_builds, writer_opens in *.
  rewrite !omap_app, T1, T2, T3, T4, T5, T6, T7, T8, T9, L1, L2, L3,
    !app_nil_r.
  repeat split; reflexivity.
Qed.

(** ** float32 conversions *)

(** Every 8-bit value divided by 255.0 lies in [0, 1]. *)
Lemma normalize_unit (v : Z) :
  Frame.is_uint8 v -> F32.between F32.zero F32.one (F32.normalize v) = true.
Proof.
  intros Hv.
  assert (forallb (fun k => F32.between F32.zero F32.one
                              (F32.normalize (Z.of_nat k)))
                  (seq 0 256) = true) as Hall by (vm_compute; reflexivity).
  rewrite forallb_forall in Hall.
  specialize (Hall (Z.to_nat v)). unfold Frame.is_uint8 in Hv.
  rewrite Z2Nat.id in Hall by lia.
  apply Hall. apply in_seq. lia.
Qed.

Lemma digits2_pos_bound (m : positive) : Zpos m < 2 ^ Zpos (digits2_pos m).
Proof.
  induction m as [m IH|m IH|]; simpl digits2_pos.
  - rewrite Pos2Z.inj_succ, Z.pow_succ_r by lia. lia.
  - rewrite Pos2Z.inj_succ, Z.pow_succ_r by lia. lia.
  - reflexivity.
Qed.

Lemma Zdigits2_bound (m : Z) : 0 <= m -> m < 2 ^ Zdigits2 m.
Proof.
  destruct m as [|m|m]; intros Hm; [reflexivity| |lia].
  apply digits2_pos_bound.
Qed.

Lemma Zdigits2_nonneg (m : Z) : 0 <= Zdigits2 m.
Proof. destruct m; simpl; lia. Qed.

Lemma shr_1_div2 (mrs : shr_record) :
  0 <= shr_m mrs -> shr_m (shr_1 mrs) = shr_m mrs / 2.
Proof.
  destruct mrs as [m r s]. simpl. intros Hm.
  destruct m as [|[p|p|]|p]; simpl; try lia; try reflexivity.
  - rewrite Pos2Z.inj_xI. apply Z.div_unique with (r := 1); lia.
  - rewrite Pos2Z.inj_xO. apply Z.div_unique with (r := 0); lia.
Qed.

Lemma shr_m_iter (p : positive) :
  forall mrs, 0 <= shr_m mrs ->
  shr_m (SpecFloat.iter_pos shr_1 p mrs) = shr_m mrs / 2 ^ Zpos p.
Proof.
  assert (forall a, 0 <= a -> 0 <= a / 2) as Hhalf
    by (intros; apply Z.div_pos; lia).
  assert (forall q, 0 < 2 ^ Zpos q) as Hpow
    by (intros; apply Z.pow_pos_nonneg; lia).
  induction p as [p IH|p IH|]; intros mrs Hm; simpl SpecFloat.iter_pos.
  - assert (0 <= shr_m (shr_1 mrs)) as H1
      by (rewrite shr_1_div2 by done; by apply Hhalf).
    assert (0 <= shr_m (SpecFloat.iter_pos shr_1 p (shr_1 mrs))) as H2
      by (rewrite IH by done; apply Z.div_pos; [done|apply Hpow]).
    rewrite IH, IH, shr_1_div2 by done.
    pose proof (Hpow p).
    rewrite !Z.div_div by lia. f_equal.
    replace (Zpos p~1) with (1 + Zpos p + Zpos p) by lia.
    rewrite !Z.pow_add_r by lia. lia.
  - assert (0 <= shr_m (SpecFloat.iter_pos shr_1 p mrs)) as H2
      by (rewrite IH by done; apply Z.div_pos; [done|apply Hpow]).
    rewrite IH, IH by done.
    pose proof (Hpow p).
    rewrite Z.div_div by lia. f_equal.
    replace (Zpos p~0) with (Zpos p + Zpos p) by lia.
    by rewrite Z.pow_add_r by lia.
  - rewrite shr_1_div2 by done. reflexivity.
Qed.

(** The mantissa [shr_fexp] leaves is that of its argument shifted right;
    it stays non-negative, and below [2 ^ prec] whatever it was. *)
Lemma shr_fexp_mantissa (prec emax m e : Z) (l : location) :
  0 < prec -> 0 <= m ->
  let mrs := fst (shr_fexp prec emax m e l) in
  0 <= shr_m mrs /\ shr_m mrs < 2 ^ prec.
Proof.
  intros Hp Hm. unfold shr_fexp, shr.
  assert (shr_m (shr_record_of_loc m l) = m) as Hrec
    by (destruct l as [|[]]; reflexivity).
  pose proof (Zdigits2_bound m Hm) as Hd.
  pose proof (Zdigits2_nonneg m) as Hdn.
  unfold fexp.
  destruct (Z.max (Zdigits2 m + e - prec) (emin prec emax) - e)
    as [|p|p] eqn:Hn; cbn [fst].
  - rewrite Hrec. split; [done|].
    eapply Z.lt_le_trans; [exact Hd|]. apply Z.pow_le_mono_r; lia.
  - rewrite shr_m_iter by (rewrite Hrec; done). rewrite Hrec.
    assert (0 < 2 ^ Zpos p) by (apply Z.pow_pos_nonneg; lia).
    split; [by apply Z.div_pos|].
    apply Z.div_lt_upper_bound; [done|].
    rewrite <- Z.pow_add_r by lia.
    eapply Z.lt_le_trans; [exact Hd|]. apply Z.pow_le_mono_r; lia.
  - rewrite Hrec. split; [done|].
    eapply Z.lt_le_trans; [exact Hd|]. apply Z.pow_le_mono_r; lia.
Qed.

Lemma round_nearest_even_nonneg (m : Z) (l : location) :
  0 <= m -> 0 <= round_nearest_even m l.
Proof.
  intros Hm. unfold round_nearest_even.
  destruct l as [|[]]; try lia. destruct (Z.even m); lia.
Qed.

(** Rounding never makes a NaN, keeps the sign it is given, and returns a
    mantissa of at most [prec] bits. *)
Lemma binary_round_aux_shape (prec emax : Z) (sx : bool) (mx ex : Z)
    (lx : location) :
  0 < prec -> 0 <= mx ->
  match binary_round_aux prec emax sx mx ex lx with
  | S754_nan => False
  | S754_finite s m _ => s = sx /\ Zpos m < 2 ^ prec
  | S754_zero s | S754_infinity s => s = sx
  end.
Proof.
  intros Hp Hm. unfold binary_round_aux.
  pose proof (shr_fexp_mantissa prec emax mx ex lx Hp Hm) as [H1 _].
  destruct (shr_fexp prec emax mx ex lx) as [mrs' e'].
  cbn [fst] in H1.
  pose proof (shr_fexp_mantissa prec emax
                (round_nearest_even (shr_m mrs') (loc_of_shr_record mrs'))
                e' loc_Exact Hp (round_nearest_even_nonneg _ _ H1)) as [H2 H3].
  destruct (shr_fexp prec emax _ e' loc_Exact) as [mrs'' e''].
  cbn [fst] in H2, H3.
  destruct (shr_m mrs'') as [|m|m]; [done| |lia].
  destruct (e'' <=? emax - prec); [by split|done].
Qed.

Lemma c255_bits : F32.c255 = S754_finite false 16711680 (-16).
Proof. reflexivity. Qed.


Lemma ltb_c255 (m : positive) (e : Z) :
  SFltb (S754_finite false m e) (S754_finite false 16711680 (-16))
  = match e ?= -16 with
    | Lt => true
    | Gt => false
    | Eq => match (m ?= 16711680)%positive with Lt => true | _ => false end
    end.
Proof.
  unfold SFltb, SFcompare. rewrite Pos.compare_cont_spec.
  destruct (e ?= -16); try reflexivity.
  cbn [Pos.switch_Eq]. by destruct (m ?= 16711680)%positive.
Qed.


Lemma c255_pixel :
  F32.between F32.zero F32.c255 F32.c255 = true
  /\ F32.astype_uint8 F32.c255 = Some 255
  /\ F32.trunc F32.c255 = Some 255.
Proof. repeat split; vm_compute; reflexivity. Qed.






Lemma height_reverse_channels (f : RawFrame) :
  Frame.height (Frame.reverse_channels f) = Frame.height f.
Proof. unfold Frame.height, Frame.reverse_channels. by rewrite length_map. Qed.

Lemma width_reverse_channels (f : RawFrame) :
  Frame.width (Frame.reverse_channels f) = Frame.width f.
Proof.
  unfold Frame.width, Frame.reverse_channels.
  destruct f as [|row f]; simpl; [done|by rewrite length_map].
Qed.

Lemma makedirs_runs (output_video : string) (files : gset string)
    (t : list Event) :
  when (negb (String.eqb (PyStr.dirname output_video) "")
        && negb (bool_decide (PyStr.dirname output_video ∈ files)))
       (makedirs (PyStr.dirname output_video)) {| fs := files; trace := t |}
  = (Return tt,
     {| fs := files_with_dir output_video files;
        trace := t ++ (if needs_makedirs output_video files
                       then [EvMakedirs (PyStr.dirname output_video)]
                       else []) |}).
Proof.
  unfold when, files_with_dir, needs_makedirs, makedirs.
  destruct (negb _ && negb _); unfold bind, emit, get_fs, set_fs, ret; simpl.
  - done.
  - by rewrite app_nil_r.
Qed.

(** The run up to the writer's opening: what is left is the session block
    and the teardown, or the raise when the writer did not open. *)
Lemma run_setup (E : Env) (input_video output_video checkpoint : string)
    (num_resblock vsr_scale : Z) (use_ema : bool) (start_frame end_frame : Z)
    (fps_flag : spec_float) (files : gset string) (v : Video)
    (first : RawFrame) (restore_vars : RestoreSpec) :
  videos E input_video = Some v ->
  v_frames v !! 0%nat = Some first ->
  Restore.restore_vars_dict use_ema (trainable_variables E) = Some restore_vars ->
  let r := reader_opened input_video v start_frame end_frame in
  let h := Frame.height first in
  let w := Frame.width first in
  let opened := writer_can_open E (temp_path output_video) in
  run E input_video output_video (Some checkpoint) num_resblock vsr_scale
    use_ema start_frame end_frame fps_flag files
  = (if opened
     then
       let! total_frames :=
         run_session E checkpoint r
           [1; h; w; 3] [1; h * vsr_scale; w * vsr_scale; 3] in
       finish E (temp_path output_video) output_video total_frames
     else raise (ValueError
                   ("Could not open video writer for: " +:+ output_video)))
      {| fs := if opened then files_at_loop output_video files
               else files_with_dir output_video files;
         trace := setup_events input_video output_video num_resblock vsr_scale
                    start_frame fps_flag files v first restore_vars opened |}.
Proof.
  intros Hv Hfirst Hrestore r h w opened.
  unfold run, process_video.
  unfold bind at 1. rewrite (reader_init_runs E _ v) by done.
  unfold bind at 1. rewrite (probe_first_frame_runs E _ v first) by done.
  rewrite Hrestore.
  unfold input_shape_of, output_shape_of.
  rewrite height_reverse_channels, width_reverse_channels.
  cbn [nth]. fold h w r.
  unfold bind at 1. rewrite trace_emit.
  unfold bind at 1. rewrite trace_emit.
  unfold bind at 1. unfold get_fs at 1.
  unfold bind at 1.
  cbn [fs trace]. rewrite makedirs_runs. cbn [fs trace].
  unfold bind at 1. unfold writer_open. fold opened.
  unfold bind at 1. rewrite trace_emit.
  unfold bind at 1. unfold get_fs at 1. cbn [fs trace].
  unfold bind at 1. unfold when.
  assert (setup_events input_video output_video num_resblock vsr_scale
            start_frame fps_flag files v first restore_vars opened
          = ((((([] ++ [EvCaptureOpen ReaderCap input_video true]
                 ++ (if 0 <? start_frame
                     then [EvCaptureSeek ReaderCap start_frame] else []))
                ++ [EvCaptureOpen ProbeCap input_video true;
                    EvCaptureRead ProbeCap (Some first);
                    EvCaptureRelease ProbeCap])
               ++ [EvBuildGraph [1; h; w; 3]
                     [1; h * vsr_scale; w * vsr_scale; 3]
                     [[0; 0]; [0; h - h / 8 * 8]; [0; w - w / 8 * 8]; [0; 0]]
                     num_resblock vsr_scale])
              ++ [EvSaver restore_vars])
             ++ (if needs_makedirs output_video files
                 then [EvMakedirs (PyStr.dirname output_video)] else []))
            ++ [EvWriterOpen (temp_path output_video)
                  (if Py.float_is_zero fps_flag then fps r else fps_flag)
                  (w * vsr_scale, h * vsr_scale) opened]) as ->.
  { unfold setup_events, r, reader_opened. fold h w.
    rewrite <- !app_assoc. simpl.
    by destruct (0 <? start_frame). }
  unfold files_at_loop.
  destruct opened; reflexivity.
Qed.

Section Run.

Variable E : Env.
Variables input_video output_video : string.
Variable checkpoint_path : option string.
Variables num_resblock vsr_scale : Z.
Variable use_ema : bool.
Variables start_flag end_flag : Z.
Variable fps_flag : spec_float.
Variable files : gset string.
Variable v : Video.
Variable first : RawFrame.

Hypothesis ready :
  Ready E input_video output_video checkpoint_path use_ema
    start_flag end_flag v first.

Let r : VideoReader := reader_opened input_video v start_flag end_flag.
Let h : Z := Frame.height first.
Let w : Z := Frame.width first.
Let final : outcome unit * World :=
  run E input_video output_video checkpoint_path num_resblock vsr_scale
    use_ema start_flag end_flag fps_flag files.

(** The whole run when nothing stops it before the loop. *)
Lemma run_ready :
  exists checkpoint restore_vars,
    checkpoint_path = Some checkpoint
    /\ Restore.restore_vars_dict use_ema (trainable_variables E)
       = Some restore_vars
    /\ final
       = (if reader_len r =? 0 then Raise ZeroDivisionError else Return tt,
          {| fs := os_system E
                     (ffmpeg_command (temp_path output_video) output_video)
                     (files_at_loop output_video files)
                   ∖ {[temp_path output_video]};
             trace :=
               setup_events input_video output_video num_resblock vsr_scale
                 start_flag fps_flag files v first restore_vars true
               ++ session_events E checkpoint r
                    [1; h; w; 3] [1; h * vsr_scale; w * vsr_scale; 3]
               ++ teardown_events E output_video
                    (files_at_loop output_video files) |}).
Proof.
  destruct ready as [[checkpoint ->] Hv Hfirst [restore_vars Hrestore] Hw Hlen].
  exists checkpoint, restore_vars. split; [done|]. split; [done|].
  unfold final. rewrite (run_setup E _ _ _ _ _ _ _ _ _ _ v first restore_vars)
    by done.
  rewrite Hw. cbv zeta. fold r h w.
  unfold bind at 1. rewrite run_session_runs by done.
  rewrite finish_runs. cbn [fs trace].
  by rewrite <- !app_assoc.
Qed.


Let t : list Event := trace (snd final).
Let n : nat := length (yielded r).
Let loop : list Event :=
  loop_events E 0
    (session_init [1; h; w; 3] [1; h * vsr_scale; w * vsr_scale; 3])
    (pending r).

Lemma length_pending : length (pending r) = n.
Proof. unfold n. by rewrite yielded_pending, length_map. Qed.

(** Every reading of the log of a run that reaches the loop. *)
Lemma read_ready :
  loop_shape t = loop_shape loop /\ session_runs t = session_runs loop
  /\ frames_read t = frames_read loop /\ generated t = generated loop
  /\ written t = written loop /\ fed t = fed loop
  /\ commands t = [ffmpeg_command (temp_path output_video) output_video]
  /\ graph_builds t = [([1; h; w; 3], [1; h * vsr_scale; w * vsr_scale; 3])]
  /\ writer_opens t
     = [(temp_path output_video, (w * vsr_scale, h * vsr_scale), true)].
Proof.
  destruct run_ready as (checkpoint & restore_vars & _ & _ & Hrun).
  unfold t. rewrite Hrun. cbn [snd trace].
  destruct (setup_quiet input_video output_video num_resblock vsr_scale
              start_flag fps_flag files v first restore_vars true)
    as (S1 & S2 & S3 & S4 & S5 & S6 & S7 & S8 & S9).
  destruct (session_events_read E checkpoint r
              [1; h; w; 3] [1; h * vsr_scale; w * vsr_scale; 3])
    as (M1 & M2 & M3 & M4 & M5 & M6 & M7 & M8 & M9).
  destruct (teardown_quiet E output_video (files_at_loop output_video files))
    as (D1 & D2 & D3 & D4 & D5 & D6 & D7 & D8 & D9).
  fold h w in S8, S9. fold loop in M1, M2, M3, M4, M5, M6.
  unfold loop_shape, session_runs, frames_read, generated, written, fed,
    commands, graph_builds, writer_opens in *.
  rewrite !omap_app, S1, S2, S3, S4, S5, S6, S7, S8, S9,
    M1, M2, M3, M4, M5, M6, M7, M8, M9, D1, D2, D3, D4, D5, D6, D7, D8, D9,
    !app_nil_r.
  repeat split; reflexivity.
Qed.

Lemma written_index_ready : map fst (written t) = seq 5 (n - 5).
Proof.
  destruct read_ready as (_ & _ & _ & _ & Hw & _).
  rewrite Hw. unfold loop. rewrite written_loop_index, length_pending.
  f_equal.
Qed.

Lemma generated_feed_ready :
  map (fun g => snd (fst g)) (generated t)
  = map (fun raw => Frame.to_input (Frame.reverse_channels raw)) (frames_read t).
Proof.
  destruct read_ready as (_ & _ & Hf & Hg & _).
  rewrite Hg, Hf. unfold loop.
  by rewrite generated_loop_feed, frames_read_loop.
Qed.

(** C2: a run that reaches its loop on a reader yielding [n] frames fetches
    the output for every index 0..n-1 and hands to the writer exactly the
    frames of index 5..n-1, each once: [n - 5] of them, none when [n <= 5]. *)
Theorem frames_written_after_warmup :
  map fst (written t) = seq 5 (n - 5)
  /\ length (written t) = (n - 5)%nat
  /\ map (fun g => fst (fst g)) (generated t) = seq 0 n.
Proof.
  destruct read_ready as (_ & _ & _ & Hg & Hw & _).
  pose proof written_index_ready as Hi.
  split; [exact Hi|]. split.
  - by rewrite <- (length_map fst), Hi, length_seq.
  - rewrite Hg. unfold loop. by rewrite generated_loop_index, length_pending.
Qed.

(** C3: in a run that reaches its loop, the session calls are [outputs]
    alone for frame 0 and [before_ops] then [outputs] for every later
    frame; the first fetch applies the generator to the zero-initialised
    warp state, and every later fetch applies it to the warp of the
    previous fetch's output and input. *)
Theorem warp_update_precedes_generator :
  session_runs t
  = flat_map (fun i => if Nat.eqb i 0 then [TGenerate i] else [TWarp i; TGenerate i])
             (seq 0 n)
  /\ (forall g, generated t !! 0%nat = Some g ->
        fst (fst g) = 0%nat
        /\ snd g = generator_net E (snd (fst g))
                     (Frame.zeros [1; h * vsr_scale; w * vsr_scale; 3]))
  /\ (forall k a b,
        generated t !! k = Some a -> generated t !! S k = Some b ->
        snd b = generator_net E (snd (fst b))
                  (warp_net E (snd a) (snd (fst a)) (snd (fst b)))).
Proof.
  destruct read_ready as (_ & Hs & _ & Hg & _).
  split; [|split].
  - rewrite Hs. unfold loop. by rewrite session_runs_loop, length_pending.
  - intros g. rewrite Hg. unfold loop.
    destruct (pending r) as [|raw rest]; [done|].
    rewrite generated_loop_cons. cbv zeta. simpl. intros [= <-]. done.
  - intros k a b. rewrite Hg. unfold loop. apply generated_loop_chain.
Qed.

(** C5: in a run that reaches its loop, the reader's capture decodes the
    frames in stream order; the steps of the loop are, frame after frame,
    the read, the warp update (but for frame 0), the fetch and the write
    (from frame 5 on), each frame's steps all before the next read; the
    k-th fetch is fed the k-th frame read; and the writes are the fetched
    outputs of index 5 and more in the order of the fetches. *)
Theorem frames_processed_in_order :
  frames_read t
  = take (Z.to_nat (end_frame r - current_frame r))
         (drop (cap_pos (cap r)) (v_frames v))
  /\ loop_shape t = flat_map frame_tags (seq 0 n)
  /\ map (fun g => snd (fst g)) (generated t)
     = map (fun raw => Frame.to_input (Frame.reverse_channels raw)) (frames_read t)
  /\ written t = omap write_of (generated t)
  /\ map fst (written t) = seq 5 (n - 5).
Proof.
  destruct read_ready as (Hl & _ & Hf & Hg & Hw & _).
  split; [|split; [|split; [|split]]].
  - rewrite Hf. unfold loop. rewrite frames_read_loop.
    unfold pending, r, reader_opened. by destruct (0 <? start_flag).
  - rewrite Hl. unfold loop. by rewrite loop_shape_loop, length_pending.
  - apply generated_feed_ready.
  - rewrite Hw, Hg. apply written_loop.
  - apply written_index_ready.
Qed.

Lemma temp_path_fresh : temp_path output_video <> output_video.
Proof.
  intros Heq. apply (f_equal String.length) in Heq.
  unfold temp_path in Heq.
  assert (forall a b, String.length (a +:+ b)
                      = (String.length a + String.length b)%nat) as Hlen.
  { intros a b. induction a as [|c a IH]; simpl; [done|by rewrite IH]. }
  rewrite Hlen in Heq. simpl in Heq. lia.
Qed.

(** C7: in a run that reaches its loop, the writer is opened once, on
    [output_video + '.temp.mp4']; the one shell command of the run is the
    ffmpeg line on that path, issued after the writer's release, which
    follows every write; and at the end the temporary path does not exist:
    the file system is what the command left, less that path, so the final
    output is there if the encoder made it. *)
Theorem temporary_file_is_encoded_then_removed :
  let temp := output_video +:+ ".temp.mp4" in
  let cmd := "ffmpeg -i " +:+ temp +:+ " -c:v libx264 -crf 18 -preset slow "
             +:+ output_video +:+ " -y" in
  writer_opens t = [(temp, (w * vsr_scale, h * vsr_scale), true)]
  /\ commands t = [cmd]
  /\ (exists before cleanup,
        t = before ++ [EvWriterRelease; EvSystem cmd] ++ cleanup
        /\ written before = written t
        /\ loop_shape before = loop_shape t
        /\ (cleanup = [] \/ cleanup = [EvRemove temp]))
  /\ (temp ∉ fs (snd final))
  /\ fs (snd final) = os_system E cmd (files_at_loop output_video files) ∖ {[temp]}
  /\ (output_video ∈ fs (snd final)
      <-> output_video ∈ os_system E cmd (files_at_loop output_video files))
  /\ (reader_len r <> 0 -> fst final = Return tt).
Proof.
  intros temp cmd.
  destruct read_ready as (Hl & _ & _ & _ & Hw & _ & Hc & _ & Ho).
  destruct run_ready as (checkpoint & restore_vars & _ & _ & Hrun).
  change temp with (temp_path output_video).
  change cmd with (ffmpeg_command (temp_path output_video) output_video).
  split; [exact Ho|]. split; [exact Hc|]. split; [|split; [|split; [|split]]].
  - eexists (setup_events input_video output_video num_resblock vsr_scale
               start_flag fps_flag files v first restore_vars true
             ++ session_events E checkpoint r
                  [1; h; w; 3] [1; h * vsr_scale; w * vsr_scale; 3]), _.
    split.
    { unfold t. rewrite Hrun. cbn [snd trace]. unfold teardown_events.
      rewrite <- !app_assoc. reflexivity. }
    destruct (setup_quiet input_video output_video num_resblock vsr_scale
                start_flag fps_flag files v first restore_vars true)
      as (S1 & _ & _ & _ & S5 & _).
    destruct (session_events_read E checkpoint r
                [1; h; w; 3] [1; h * vsr_scale; w * vsr_scale; 3])
      as (M1 & _ & _ & _ & M5 & _).
    fold loop in M1, M5.
    split; [|split].
    + rewrite Hw. unfold written in *. by rewrite omap_app, S5, M5.
    + rewrite Hl. unfold loop_shape in *. by rewrite omap_app, S1, M1.
    + case_bool_decide; [by right|by left].
  - rewrite Hrun. cbn [snd fs].
    rewrite elem_of_difference, elem_of_singleton. by intros [_ Hne].
  - by rewrite Hrun.
  - rewrite Hrun. cbn [snd fs].
    rewrite elem_of_difference, elem_of_singleton.
    pose proof temp_path_fresh as Hfresh.
    split; [by intros [Hin _]|]. intros Hin. split; [done|].
    intros Heq. by apply Hfresh.
  - intros Hne. rewrite Hrun. cbn [fst].
    by replace (reader_len r =? 0) with false by lia.
Qed.

Hypothesis frames_are_uint8 : Forall Frame.is_uint8_frame (v_frames v).

Lemma to_input_unit (raw : RawFrame) :
  Frame.is_uint8_frame raw ->
  Forall (Forall (Forall (Forall
    (fun x => F32.between F32.zero F32.one x = true))))
    (Frame.to_input (Frame.reverse_channels raw)).
Proof.
  intros Hraw. unfold Frame.to_input, Frame.map3, Frame.reverse_channels.
  constructor; [|constructor].
  rewrite map_map. apply Forall_map. eapply Forall_impl; [exact Hraw|].
  intros row Hrow. cbn beta. rewrite map_map. apply Forall_map.
  eapply Forall_impl; [exact Hrow|].
  intros px Hpx. cbn beta. apply Forall_map. apply Forall_rev.
  eapply Forall_impl; [exact Hpx|].
  intros x Hx. by apply normalize_unit.
Qed.

(** C8: in a run that reaches its loop, every tensor fed to the session is
    a frame the reader decoded, its channel axis reversed and each value
    divided by 255.0 in float32 (the k-th fetch is fed the k-th frame), so
    when the frames are 8-bit every fed value lies in [0, 1]; and the graph
    is built exactly once, before the first frame is read or fed. *)
Theorem fed_tensors_are_normalised_frames :
  Forall (fun feed => exists raw,
            raw ∈ frames_read t
            /\ feed = [map (map (map (fun x => F32.div (F32.of_Z x) F32.c255)))
                         (map (map (@rev Z)) raw)])
         (fed t)
  /\ map (fun g => snd (fst g)) (generated t)
     = map (fun raw => Frame.to_input (Frame.reverse_channels raw)) (frames_read t)
  /\ Forall (Forall (Forall (Forall (Forall
       (fun x => F32.between F32.zero F32.one x = true))))) (fed t)
  /\ graph_builds t = [([1; h; w; 3], [1; h * vsr_scale; w * vsr_scale; 3])]
  /\ exists pre post,
       t = pre
           ++ EvBuildGraph [1; h; w; 3] [1; h * vsr_scale; w * vsr_scale; 3]
                [[0; 0]; [0; h - h / 8 * 8]; [0; w - w / 8 * 8]; [0; 0]]
                num_resblock vsr_scale
           :: post
       /\ fed pre = [] /\ frames_read pre = [] /\ graph_builds post = [].
Proof.
  destruct read_ready as (_ & _ & Hf & Hg & _ & Hfed & _ & Hb & _).
  assert (frames_read t = pending r) as Hread
    by (rewrite Hf; apply frames_read_loop).
  pose proof (fed_loop E (pending r) 0
                (session_init [1; h; w; 3] [1; h * vsr_scale; w * vsr_scale; 3]))
    as Hall.
  fold loop in Hall. rewrite <- Hfed, <- Hread in Hall.
  split; [exact Hall|]. split; [|split; [|split; [exact Hb|]]].
  - apply generated_feed_ready.
  - eapply Forall_impl; [exact Hall|].
    intros feed (raw & Hin & ->). apply to_input_unit.
    rewrite Hread in Hin. unfold pending in Hin.
    apply subseteq_take, subseteq_drop in Hin.
    eapply Forall_forall in frames_are_uint8; [exact frames_are_uint8|].
    unfold r, reader_opened in Hin. by destruct (0 <? start_flag).
  - destruct run_ready as (checkpoint & restore_vars & _ & _ & Hrun).
    eexists ([EvCaptureOpen ReaderCap input_video true]
             ++ (if 0 <? start_flag
                 then [EvCaptureSeek ReaderCap start_flag] else [])
             ++ [EvCaptureOpen ProbeCap input_video true;
                 EvCaptureRead ProbeCap (Some first);
                 EvCaptureRelease ProbeCap]), _.
    split; [|split; [|split]].
    + unfold t. rewrite Hrun. cbn [snd trace]. unfold setup_events.
      fold h w. rewrite <- !app_assoc. cbn [app]. reflexivity.
    + by destruct (0 <? start_flag).
    + by destruct (0 <? start_flag).
    + destruct (session_events_read E checkpoint r
                  [1; h; w; 3] [1; h * vsr_scale; w * vsr_scale; 3])
        as (_ & _ & _ & _ & _ & _ & _ & M8 & _).
      destruct (teardown_quiet E output_video (files_at_loop output_video files))
        as (_ & _ & _ & _ & _ & _ & _ & D8 & _).
      unfold graph_builds in *.
      destruct (needs_makedirs output_video files);
        cbn [app omap list_omap]; rewrite !omap_app, M8, D8; reflexivity.
Qed.

End Run.

(** ** Shapes, and the ways a run fails *)

(** What is left of a run after the writer's opening never builds a graph
    or opens a writer again. *)
Lemma run_rest_quiet (E : Env) (checkpoint output_video : string)
    (r : VideoReader) (ishape oshape : list Z) (opened : bool) (w0 : World) :
  exists evs,
    trace (snd ((if opened
                 then
                   let! total_frames :=
                     run_session E checkpoint r ishape oshape in
                   finish E (temp_path output_video) output_video total_frames
                 else raise (ValueError
                               ("Could not open video writer for: "
                                +:+ output_video))) w0))
    = trace w0 ++ evs
    /\ graph_builds evs = [] /\ writer_opens evs = [].
Proof.
  destruct opened; [|exists []; by rewrite app_nil_r].
  destruct (Z_lt_le_dec (reader_len r) 0) as [Hneg|Hpos];
    [|destruct (Z_lt_le_dec Py.maxsize (reader_len r)) as [Hbig|Hfit]].
  - exists [EvSessionInit; EvRestore checkpoint].
    unfold run_session, Py.len.
    replace (reader_len r <? 0) with true by lia.
    unfold bind, emit, raise.
    cbn [snd trace fs]. by rewrite <- app_assoc.
  - exists [EvSessionInit; EvRestore checkpoint].
    unfold run_session, Py.len.
    replace (reader_len r <? 0) with false by lia.
    replace (Py.maxsize <? reader_len r) with true by lia.
    unfold bind, emit, raise.
    cbn [snd trace fs]. by rewrite <- app_assoc.
  - unfold bind at 1. rewrite run_session_runs by lia. rewrite finish_runs.
    cbn [snd trace fs].
    exists (session_events E checkpoint r ishape oshape
            ++ teardown_events E output_video (fs w0)).
    split; [by rewrite <- app_assoc|].
    destruct (session_events_read E checkpoint r ishape oshape)
      as (_ & _ & _ & _ & _ & _ & _ & M8 & M9).
    destruct (teardown_quiet E output_video (fs w0))
      as (_ & _ & _ & _ & _ & _ & _ & D8 & D9).
    unfold graph_builds, writer_opens in *.
    by rewrite !omap_app, M8, M9, D8, D9.
Qed.

(** C4: once the first frame is read, of height [h] and width [w], the
    one graph of the run is built for the input shape [1, h, w, 3] and the
    output shape [1, h * vsr_scale, w * vsr_scale, 3], and the one writer of
    the run is opened, on the temporary path, with the frame size
    (w * vsr_scale, h * vsr_scale). *)
Theorem output_is_upscaled (E : Env) (input_video output_video : string)
    (checkpoint : string) (num_resblock vsr_scale : Z) (use_ema : bool)
    (start_flag end_flag : Z) (fps_flag : spec_float) (files : gset string)
    (v : Video) (first : RawFrame) :
  videos E input_video = Some v ->
  v_frames v !! 0%nat = Some first ->
  is_Some (Restore.restore_vars_dict use_ema (trainable_variables E)) ->
  let t := trace (snd (run E input_video output_video (Some checkpoint)
                         num_resblock vsr_scale use_ema start_flag end_flag
                         fps_flag files)) in
  let h := Frame.height first in
  let w := Frame.width first in
  graph_builds t = [([1; h; w; 3], [1; h * vsr_scale; w * vsr_scale; 3])]
  /\ writer_opens t
     = [(output_video +:+ ".temp.mp4", (w * vsr_scale, h * vsr_scale),
         writer_can_open E (output_video +:+ ".temp.mp4"))].
Proof.
  intros Hv Hfirst [restore_vars Hrestore] t h w.
  unfold t. rewrite (run_setup E _ _ _ _ _ _ _ _ _ _ v first restore_vars)
    by done.
  cbv zeta.
  edestruct (run_rest_quiet E checkpoint output_video) as (evs & -> & Hg & Hw).
  cbn [trace].
  destruct (setup_quiet input_video output_video num_resblock vsr_scale
              start_flag fps_flag files v first restore_vars
              (writer_can_open E (temp_path output_video)))
    as (_ & _ & _ & _ & _ & _ & _ & S8 & S9).
  unfold graph_builds, writer_opens in *.
  by rewrite !omap_app, S8, S9, Hg, Hw.
Qed.

(** C6: each of the four conditions ends the run with a [ValueError], and
    the log stops at the call that failed: nothing is attempted a second
    time and nothing is done afterwards. *)
Theorem failures_raise_value_error (E : Env)
    (input_video output_video : string) (num_resblock vsr_scale : Z)
    (use_ema : bool) (start_flag end_flag : Z) (fps_flag : spec_float)
    (files : gset string) :
  let go := fun checkpoint_path =>
    run E input_video output_video checkpoint_path num_resblock vsr_scale
      use_ema start_flag end_flag fps_flag files in
  go None
  = (Raise (ValueError
              "The checkpoint file is needed to perform super-resolution."),
     {| fs := files; trace := [] |})
  /\ (forall checkpoint,
        videos E input_video = None ->
        go (Some checkpoint)
        = (Raise (ValueError ("Could not open video file: " +:+ input_video)),
           {| fs := files;
              trace := [EvCaptureOpen ReaderCap input_video false] |}))
  /\ (forall checkpoint v,
        videos E input_video = Some v ->
        v_frames v = [] ->
        go (Some checkpoint)
        = (Raise (ValueError
                    ("Could not read from video file: " +:+ input_video)),
           {| fs := files;
              trace := [EvCaptureOpen ReaderCap input_video true]
                       ++ (if 0 <? start_flag
                           then [EvCaptureSeek ReaderCap start_flag] else [])
                       ++ [EvCaptureOpen ProbeCap input_video true;
                           EvCaptureRead ProbeCap None] |}))
  /\ (forall checkpoint v first restore_vars,
        videos E input_video = Some v ->
        v_frames v !! 0%nat = Some first ->
        Restore.restore_vars_dict use_ema (trainable_variables E)
        = Some restore_vars ->
        writer_can_open E (temp_path output_video) = false ->
        go (Some checkpoint)
        = (Raise (ValueError
                    ("Could not open video writer for: " +:+ output_video)),
           {| fs := files_with_dir output_video files;
              trace := setup_events input_video output_video num_resblock
                         vsr_scale start_flag fps_flag files v first
                         restore_vars false |})).
Proof.
  intros go. split; [reflexivity|]. split; [|split].
  - intros checkpoint Hv. unfold go, run, process_video, reader_init.
    rewrite Hv. reflexivity.
  - intros checkpoint v Hv Hnone. unfold go, run, process_video.
    unfold bind at 1. rewrite (reader_init_runs E _ v) by done.
    unfold bind at 1. unfold probe_first_frame, Cap.read. rewrite Hv.
    cbn [cap_video cap_pos]. rewrite Hnone.
    unfold bind, emit, raise. cbn [lookup list_lookup fs trace].
    by rewrite <- !app_assoc.
  - intros checkpoint v first restore_vars Hv Hfirst Hrestore Hw.
    unfold go.
    rewrite (run_setup E _ _ _ _ _ _ _ _ _ _ v first restore_vars) by done.
    cbv zeta. by rewrite Hw.
Qed.

(** ** The theorems at the sample inputs *)

Lemma sample_ready :
  Ready Sample.env "in.mp4" "out.mp4" (Some "ckpt") true 0 (-1)
    Sample.clip7 [[[10; 11; 12]]].
Proof.
  constructor.
  - eexists. reflexivity.
  - reflexivity.
  - reflexivity.
  - eexists. reflexivity.
  - reflexivity.
  - vm_compute. split; discriminate.
Defined.

Lemma sample_frames_are_uint8 :
  Forall Frame.is_uint8_frame (v_frames Sample.clip7).
Proof.
  unfold Frame.is_uint8_frame, Frame.is_uint8. simpl.
  repeat constructor; lia.
Defined.

Lemma frames_written_after_warmup_witness :
  map fst (written (trace (snd (run Sample.env "in.mp4" "out.mp4" (Some "ckpt")
                                  10 4 true 0 (-1) (S754_zero false) ∅))))
  = [5; 6]%nat.
Proof.
  exact (proj1 (frames_written_after_warmup Sample.env "in.mp4" "out.mp4"
                  (Some "ckpt") 10 4 true 0 (-1) (S754_zero false) ∅
                  Sample.clip7 [[[10; 11; 12]]] sample_ready)).
Defined.

Lemma warp_update_precedes_generator_witness :
  session_runs (trace (snd (run Sample.env "in.mp4" "out.mp4" (Some "ckpt")
                              10 4 true 0 (-1) (S754_zero false) ∅)))
  = [TGenerate 0; TWarp 1; TGenerate 1; TWarp 2; TGenerate 2;
     TWarp 3; TGenerate 3; TWarp 4; TGenerate 4; TWarp 5; TGenerate 5;
     TWarp 6; TGenerate 6].
Proof.
  exact (proj1 (warp_update_precedes_generator Sample.env "in.mp4" "out.mp4"
                  (Some "ckpt") 10 4 true 0 (-1) (S754_zero false) ∅
                  Sample.clip7 [[[10; 11; 12]]] sample_ready)).
Defined.

Lemma output_is_upscaled_witness :
  graph_builds (trace (snd (run Sample.env "in.mp4" "out.mp4" (Some "ckpt")
                              10 4 true 0 (-1) (S754_zero false) ∅)))
  = [([1; 1; 1; 3], [1; 4; 4; 3])]
  /\ writer_opens (trace (snd (run Sample.env "in.mp4" "out.mp4" (Some "ckpt")
                                 10 4 true 0 (-1) (S754_zero false) ∅)))
     = [("out.mp4.temp.mp4", (4, 4), true)].
Proof.
  exact (output_is_upscaled Sample.env "in.mp4" "out.mp4" "ckpt" 10 4 true
           0 (-1) (S754_zero false) ∅ Sample.clip7 [[[10; 11; 12]]]
           eq_refl eq_refl (ex_intro _ _ eq_refl)).
Defined.

Lemma frames_processed_in_order_witness :
  loop_shape (trace (snd (run Sample.env "in.mp4" "out.mp4" (Some "ckpt")
                            10 4 true 0 (-1) (S754_zero false) ∅)))
  = [TRead; TGenerate 0;
     TRead; TWarp 1; TGenerate 1;
     TRead; TWarp 2; TGenerate 2;
     TRead; TWarp 3; TGenerate 3;
     TRead; TWarp 4; TGenerate 4;
     TRead; TWarp 5; TGenerate 5; TWrite 5;
     TRead; TWarp 6; TGenerate 6; TWrite 6].
Proof.
  exact (proj1 (proj2 (frames_processed_in_order Sample.env "in.mp4" "out.mp4"
                         (Some "ckpt") 10 4 true 0 (-1) (S754_zero false) ∅
                         Sample.clip7 [[[10; 11; 12]]] sample_ready))).
Defined.

Lemma failures_raise_value_error_witness :
  fst (run Sample.env "missing.mp4" "out.mp4" (Some "ckpt") 10 4 true 0 (-1)
         (S754_zero false) ∅)
  = Raise (ValueError "Could not open video file: missing.mp4")
  /\ fst (run Sample.env_empty_video "in.mp4" "out.mp4" (Some "ckpt") 10 4 true
            0 (-1) (S754_zero false) ∅)
     = Raise (ValueError "Could not read from video file: in.mp4")
  /\ fst (run Sample.env_no_writer "in.mp4" "out.mp4" (Some "ckpt") 10 4 true
            0 (-1) (S754_zero false) ∅)
     = Raise (ValueError "Could not open video writer for: out.mp4").
Proof.
  split; [|split].
  - exact (f_equal fst
             (proj1 (proj2 (failures_raise_value_error Sample.env "missing.mp4"
                              "out.mp4" 10 4 true 0 (-1) (S754_zero false) ∅))
                "ckpt" eq_refl)).
  - exact (f_equal fst
             (proj1 (proj2 (proj2 (failures_raise_value_error
                                     Sample.env_empty_video "in.mp4" "out.mp4"
                                     10 4 true 0 (-1) (S754_zero false) ∅)))
                "ckpt" _ eq_refl eq_refl)).
  - exact (f_equal fst
             (proj2 (proj2 (proj2 (failures_raise_value_error
                                     Sample.env_no_writer "in.mp4" "out.mp4"
                                     10 4 true 0 (-1) (S754_zero false) ∅)))
                "ckpt" Sample.clip7 [[[10; 11; 12]]] _ eq_refl eq_refl
                eq_refl eq_refl)).
Defined.

Lemma temporary_file_is_encoded_then_removed_witness :
  commands (trace (snd (run Sample.env "in.mp4" "out.mp4" (Some "ckpt")
                          10 4 true 0 (-1) (S754_zero false) ∅)))
  = ["ffmpeg -i out.mp4.temp.mp4 -c:v libx264 -crf 18 -preset slow out.mp4 -y"]
  /\ "out.mp4.temp.mp4"
     ∉ fs (snd (run Sample.env "in.mp4" "out.mp4" (Some "ckpt")
                  10 4 true 0 (-1) (S754_zero false) ∅)).
Proof.
  pose proof (temporary_file_is_encoded_then_removed Sample.env "in.mp4"
                "out.mp4" (Some "ckpt") 10 4 true 0 (-1) (S754_zero false) ∅
                Sample.clip7 [[[10; 11; 12]]] sample_ready)
    as (_ & Hc & _ & Hgone & _).
  exact (conj Hc Hgone).
Defined.

Lemma fed_tensors_are_normalised_frames_witness :
  Forall (Forall (Forall (Forall (Forall
    (fun x => F32.between F32.zero F32.one x = true)))))
    (fed (trace (snd (run Sample.env "in.mp4" "out.mp4" (Some "ckpt")
                        10 4 true 0 (-1) (S754_zero false) ∅)))).
Proof.
  pose proof (fed_tensors_are_normalised_frames Sample.env "in.mp4" "out.mp4"
                (Some "ckpt") 10 4 true 0 (-1) (S754_zero false) ∅
                Sample.clip7 [[[10; 11; 12]]] sample_ready
                sample_frames_are_uint8)
    as (_ & _ & Hunit & _).
  exact Hunit.
Defined.


(** * More of the file *)

(** ** VideoReader as an iterator *)

(** X1: the frames a freshly built reader yields are a window of the file,
    channels reversed: it starts at [start_frame] (at 0 when that is not
    positive) and holds at most [end_frame - max(0, start_frame)] frames,
    [end_frame] being the container's count when the argument is not
    positive; it is cut short where the stream ends. *)
Theorem reader_yields_window (path : string) (v : Video) (s e : Z) :
  let last := if 0 <? e then e else v_frame_count v in
  yielded (reader_opened path v s e)
  = map Frame.reverse_channels
      (take (Z.to_nat (last - Z.max 0 s)) (drop (Z.to_nat s) (v_frames v)))
  /\ length (yielded (reader_opened path v s e))
     = Nat.min (Z.to_nat (last - Z.max 0 s))
               (length (v_frames v) - Z.to_nat s).
Proof.
  intros last.
  assert (yielded (reader_opened path v s e)
          = map Frame.reverse_channels
              (take (Z.to_nat (last - Z.max 0 s))
                    (drop (Z.to_nat s) (v_frames v)))) as Hy.
  { rewrite yielded_pending. unfold pending, reader_opened, last.
    destruct (0 <? s) eqn:Hs; simpl.
    - by replace (Z.max 0 s) with s by lia.
    - replace (Z.max 0 s) with 0 by lia.
      by replace (Z.to_nat s) with 0%nat by lia. }
  split; [exact Hy|].
  by rewrite Hy, length_map, length_take, length_drop.
Qed.

(** X2: a call of [__next__] that yields hands out the frame under the
    capture's cursor with its channels reversed, logs that one read, moves
    the cursor and [current_frame] one further and leaves everything else
    as it was; in particular [len(reader)] does not shrink as the reader
    is consumed. *)
Theorem reader_next_advances (r r' : VideoReader) (w w' : World)
    (frame : RawFrame) :
  reader_next r w = (Return (Yield frame r'), w') ->
  current_frame r < end_frame r
  /\ (exists raw,
        v_frames (cap_video (cap r)) !! cap_pos (cap r) = Some raw
        /\ frame = Frame.reverse_channels raw
        /\ trace w' = trace w ++ [EvCaptureRead ReaderCap (Some raw)])
  /\ fs w' = fs w
  /\ current_frame r' = current_frame r + 1
  /\ cap_pos (cap r') = S (cap_pos (cap r))
  /\ cap_video (cap r') = cap_video (cap r)
  /\ start_frame r' = start_frame r
  /\ end_frame r' = end_frame r
  /\ reader_len r' = reader_len r.
Proof.
  unfold reader_next, Cap.read.
  destruct (end_frame r <=? current_frame r) eqn:Hc; [discriminate|].
  destruct (v_frames (cap_video (cap r)) !! cap_pos (cap r)) as [raw|] eqn:Hl;
    unfold bind, emit, ret; simpl; [|discriminate].
  intros [= <- <- <-]. simpl.
  split; [lia|]. split; [by exists raw|]. repeat split.
Qed.

Lemma reader_next_advances_witness :
  exists r',
    current_frame r' = 1
    /\ reader_len r' = reader_len (reader_opened "in.mp4" Sample.clip7 0 (-1)).
Proof.
  eexists.
  pose proof (reader_next_advances
                (reader_opened "in.mp4" Sample.clip7 0 (-1)) _
                {| fs := ∅; trace := [] |} _ _ eq_refl)
    as (_ & _ & _ & Hc & _ & _ & _ & _ & Hl).
  exact (conj Hc Hl).
Defined.

(** ** From bytes to float32 and back *)

Lemma pixel_of_normalized (v : Z) :
  Frame.is_uint8 v -> F32.to_pixel (F32.normalize v) = Some v.
Proof.
  intros Hv.
  assert (forallb (fun k =>
            match F32.to_pixel (F32.normalize (Z.of_nat k)) with
            | Some p => p =? Z.of_nat k
            | None => false
            end) (seq 0 256) = true) as Hall by (vm_compute; reflexivity).
  rewrite forallb_forall in Hall.
  specialize (Hall (Z.to_nat v)). unfold Frame.is_uint8 in Hv.
  rewrite Z2Nat.id in Hall by lia.
  destruct (F32.to_pixel (F32.normalize v)) as [p|].
  - f_equal. apply Z.eqb_eq. apply Hall. apply in_seq. lia.
  - discriminate Hall. apply in_seq. lia.
Qed.

(** X3: dividing an 8-bit value by 255.0 in float32 and turning the
    quotient back into a pixel (times 255.0, clip, truncating cast) gives
    the value back: the truncation never lands one below. *)
Theorem byte_survives_the_round_trip (v : Z) :
  0 <= v <= 255 ->
  F32.astype_uint8
    (F32.clip (F32.mul (F32.div (F32.of_Z v) F32.c255) F32.c255)
       F32.zero F32.c255)
  = Some v.
Proof. intros Hv. by apply pixel_of_normalized. Qed.

Lemma byte_survives_the_round_trip_witness :
  F32.astype_uint8
    (F32.clip (F32.mul (F32.div (F32.of_Z 77) F32.c255) F32.c255)
       F32.zero F32.c255)
  = Some 77.
Proof. apply (byte_survives_the_round_trip 77). lia. Defined.

Lemma reverse_channels_twice {A : Type} (f : list (list (list A))) :
  Frame.reverse_channels (Frame.reverse_channels f) = f.
Proof.
  unfold Frame.reverse_channels. rewrite map_map.
  rewrite <- (map_id f) at 2. apply map_ext. intros row.
  rewrite map_map. rewrite <- (map_id row) at 2. apply map_ext.
  intros px. apply rev_involutive.
Qed.

Lemma reverse_channels_map3 {A B : Type} (g : A -> B)
    (f : list (list (list A))) :
  Frame.reverse_channels (Frame.map3 g f)
  = Frame.map3 g (Frame.reverse_channels f).
Proof.
  unfold Frame.reverse_channels, Frame.map3. rewrite !map_map.
  apply map_ext. intros row. rewrite !map_map. apply map_ext.
  intros px. symmetry. apply map_rev.
Qed.

Lemma map3_ext_uint8 {B : Type} (g g' : Z -> B) (f : RawFrame) :
  (forall x, Frame.is_uint8 x -> g x = g' x) ->
  Frame.is_uint8_frame f ->
  Frame.map3 g f = Frame.map3 g' f.
Proof.
  intros Hg Hf. unfold Frame.map3.
  apply map_ext_in. intros row Hrow.
  apply map_ext_in. intros px Hpx.
  apply map_ext_in. intros x Hx. apply Hg.
  unfold Frame.is_uint8_frame in Hf.
  rewrite List.Forall_forall in Hf. specialize (Hf row Hrow).
  rewrite List.Forall_forall in Hf. specialize (Hf px Hpx).
  rewrite List.Forall_forall in Hf. by apply Hf.
Qed.

Lemma echo_frame (raw : RawFrame) :
  Frame.is_uint8_frame raw ->
  Frame.to_output (Frame.to_input (Frame.reverse_channels raw))
  = Frame.map3 Some raw.
Proof.
  intros Hraw. unfold Frame.to_output, Frame.to_input. cbn [hd].
  rewrite reverse_channels_map3.
  assert (Frame.map3 F32.normalize (Frame.reverse_channels raw)
          = Frame.reverse_channels (Frame.map3 F32.normalize raw)) as ->
    by (symmetry; apply reverse_channels_map3).
  rewrite reverse_channels_twice.
  unfold Frame.map3 at 1 2. rewrite map_map.
  assert (forall (row : list (list Z)),
            map (map F32.to_pixel) (map (map F32.normalize) row)
            = map (map (fun x => F32.to_pixel (F32.normalize x))) row) as Hrow.
  { intros row. rewrite map_map. apply map_ext. intros px. apply map_map. }
  rewrite (map_ext _ _ Hrow).
  apply (map3_ext_uint8 (fun x => F32.to_pixel (F32.normalize x)) Some).
  - apply pixel_of_normalized.
  - exact Hraw.
Qed.

(** X4: the two colour conversions of the driver undo each other, and so
    do its two numeric conversions: a frame that is read (BGR to RGB),
    normalised, and handed back unchanged by the graph is written
    (denormalised, RGB to BGR) exactly as it was decoded, every pixel
    defined. *)
Theorem echoed_frame_is_written_unchanged (raw : RawFrame) :
  Forall (Forall (Forall (fun x => 0 <= x <= 255))) raw ->
  Frame.to_output (Frame.to_input (Frame.reverse_channels raw))
  = map (map (map Some)) raw
  /\ Frame.reverse_channels (Frame.reverse_channels raw) = raw
  /\ Frame.height (Frame.reverse_channels raw) = Frame.height raw
  /\ Frame.width (Frame.reverse_channels raw) = Frame.width raw.
Proof.
  intros Hraw. split; [by apply echo_frame|]. split; [|split].
  - apply reverse_channels_twice.
  - apply height_reverse_channels.
  - apply width_reverse_channels.
Qed.

Lemma echoed_frame_is_written_unchanged_witness :
  Frame.to_output (Frame.to_input (Frame.reverse_channels [[[0; 128; 255]]]))
  = [[[Some 0; Some 128; Some 255]]].
Proof.
  refine (proj1 (echoed_frame_is_written_unchanged [[[0; 128; 255]]] _)).
  repeat constructor; lia.
Defined.

(** X5: an output that is zero or negative --- of any magnitude, minus
    infinity and minus zero included --- is written as the pixel 0: the
    clip's lower bound, not a wrapped byte. *)
Theorem nonpositive_output_is_black (x : spec_float) :
  SFleb x F32.zero = true -> F32.to_pixel x = Some 0.
Proof.
  intros Hx. unfold F32.to_pixel, F32.clipped.
  assert (match F32.mul x F32.c255 with
          | S754_zero _ | S754_infinity true | S754_finite true _ _ => True
          | _ => False
          end) as Hy.
  { rewrite c255_bits. destruct x as [s|[]| |[] m e]; try done.
    unfold F32.mul, SFmul.
    pose proof (binary_round_aux_shape F32.prec F32.emax (xorb true false)
                  (Zpos (m * 16711680)) (e + -16) loc_Exact) as H.
    destruct (binary_round_aux _ _ _ _ _ _) as [s|s| |s m' e'].
    - done.
    - by rewrite H.
    - by apply H.
    - destruct H as [-> _]; done. }
  destruct (F32.mul x F32.c255) as [s|[]| |[] m e];
    solve [destruct Hy | reflexivity | destruct s; reflexivity].
Qed.

Lemma nonpositive_output_is_black_witness :
  F32.to_pixel (S754_finite true 12582912 (-20)) = Some 0.
Proof.
  exact (nonpositive_output_is_black (S754_finite true 12582912 (-20)) eq_refl).
Defined.

(** ** Outputs of one and more *)

Lemma round_nearest_even_step (m : Z) (l : location) :
  m <= round_nearest_even m l <= m + 1.
Proof.
  destruct l as [|[]]; cbn [round_nearest_even]; try lia.
  match goal with |- context [if ?b then _ else _] => destruct b end; lia.
Qed.

Lemma digits2_pos_lower (m : positive) :
  2 ^ (Zpos (digits2_pos m) - 1) <= Zpos m.
Proof.
  induction m as [m IH|m IH|]; simpl digits2_pos.
  - rewrite Pos2Z.inj_succ.
    replace (Z.succ (Zpos (digits2_pos m)) - 1)
      with (Z.succ (Zpos (digits2_pos m) - 1)) by lia.
    rewrite Z.pow_succ_r by lia. lia.
  - rewrite Pos2Z.inj_succ.
    replace (Z.succ (Zpos (digits2_pos m)) - 1)
      with (Z.succ (Zpos (digits2_pos m) - 1)) by lia.
    rewrite Z.pow_succ_r by lia. lia.
  - reflexivity.
Qed.

Lemma digits2_pos_unique (m : positive) (d : Z) :
  2 ^ (d - 1) <= Zpos m < 2 ^ d -> 0 < d -> Zpos (digits2_pos m) = d.
Proof.
  intros [Hlo Hhi] Hd.
  pose proof (digits2_pos_bound m) as Hb.
  pose proof (digits2_pos_lower m) as Hl.
  generalize dependent (Zpos (digits2_pos m)). intros k Hb Hl.
  destruct (Z.lt_trichotomy k d) as [Hlt|[Heq|Hgt]]; [|done|].
  - destruct (Z_le_gt_dec k 0) as [Hk|Hk].
    + assert (2 ^ k <= 2 ^ 0) as Hp.
      { destruct k; [done| lia |done]. }
      change (2 ^ 0) with 1 in Hp. lia.
    + assert (2 ^ k <= 2 ^ (d - 1)) by (apply Z.pow_le_mono_r; lia). lia.
  - assert (2 ^ d <= 2 ^ (k - 1)) by (apply Z.pow_le_mono_r; lia). lia.
Qed.

(** What [shr_fexp] does, exactly: a right shift by the number of bits
    the mantissa has too many. *)
Lemma shr_fexp_exact (prec emax m e : Z) (l : location) :
  0 <= m ->
  shr_m (fst (shr_fexp prec emax m e l))
  = (if 0 <? fexp prec emax (Zdigits2 m + e) - e
     then m / 2 ^ (fexp prec emax (Zdigits2 m + e) - e) else m)
  /\ snd (shr_fexp prec emax m e l)
     = (if 0 <? fexp prec emax (Zdigits2 m + e) - e
        then e + (fexp prec emax (Zdigits2 m + e) - e) else e).
Proof.
  intros Hm. unfold shr_fexp, shr.
  assert (shr_m (shr_record_of_loc m l) = m) as Hrec
    by (destruct l as [|[]]; reflexivity).
  destruct (fexp prec emax (Zdigits2 m + e) - e) as [|p|p]; cbn [fst snd].
  - done.
  - rewrite shr_m_iter by (rewrite Hrec; done). by rewrite Hrec.
  - done.
Qed.

Lemma fexp_normal (k : Z) : -125 <= k -> fexp 24 128 k = k - 24.
Proof. intros Hk. unfold fexp, emin. apply Z.max_l. lia. Qed.

(** The product of a float32 of at least one with 255.0 is at least
    255.0, or overflows. *)
Lemma mul_c255_at_least_one (m : positive) (e : Z) :
  8388608 <= Zpos m < 16777216 -> -23 <= e ->
  match binary_round_aux 24 128 false (Zpos (m * 16711680)) (e + -16)
          loc_Exact with
  | S754_infinity false => True
  | S754_finite false m' e' => -16 < e' \/ (e' = -16 /\ 16711680 <= Zpos m')
  | _ => False
  end.
Proof.
  intros Hm He. unfold binary_round_aux.
  assert (Zpos (m * 16711680) = Zpos m * 16711680) as HM by lia.
  pose proof (shr_fexp_exact 24 128 (Zpos (m * 16711680)) (e + -16) loc_Exact
                ltac:(lia)) as [H1 H2].
  destruct (shr_fexp 24 128 (Zpos (m * 16711680)) (e + -16) loc_Exact)
    as [mrs' e1].
  cbn [fst snd Zdigits2] in H1, H2.
  assert (8388608 <= shr_m mrs' < 16777216
          /\ (e1 = e + 7 /\ (e = -23 -> 16711680 <= shr_m mrs')
              \/ e1 = e + 8)) as [Hm1 He1].
  { destruct (Z_lt_le_dec (Zpos m * 16711680) 140737488355328) as [Hs|Hs].
    - assert (Zpos (digits2_pos (m * 16711680)) = 47) as Hd.
      { apply digits2_pos_unique; [|lia].
        change (2 ^ (47 - 1)) with 70368744177664.
        change (2 ^ 47) with 140737488355328. lia. }
      rewrite Hd, fexp_normal in H1, H2 by lia.
      replace (47 + (e + -16) - 24 - (e + -16)) with 23 in H1, H2 by lia.
      change (0 <? 23) with true in H1, H2. cbv iota in H1, H2.
      change (2 ^ 23) with 8388608 in H1. rewrite HM in H1. rewrite H1.
      split; [split|left; split; [lia|intros _]].
      + apply Z.div_le_lower_bound; lia.
      + apply Z.div_lt_upper_bound; lia.
      + apply Z.div_le_lower_bound; lia.
    - assert (Zpos (digits2_pos (m * 16711680)) = 48) as Hd.
      { apply digits2_pos_unique; [|lia].
        change (2 ^ (48 - 1)) with 140737488355328.
        change (2 ^ 48) with 281474976710656. lia. }
      rewrite Hd, fexp_normal in H1, H2 by lia.
      replace (48 + (e + -16) - 24 - (e + -16)) with 24 in H1, H2 by lia.
      change (0 <? 24) with true in H1, H2. cbv iota in H1, H2.
      change (2 ^ 24) with 16777216 in H1. rewrite HM in H1. rewrite H1.
      split; [split|right; lia].
      + apply Z.div_le_lower_bound; lia.
      + apply Z.div_lt_upper_bound; lia. }
  pose proof (round_nearest_even_step (shr_m mrs') (loc_of_shr_record mrs'))
    as Hstep.
  remember (round_nearest_even (shr_m mrs') (loc_of_shr_record mrs')) as m2
    eqn:Hm2.
  clear Hm2 H1 H2.
  destruct m2 as [|p|p]; [lia| |lia].
  pose proof (shr_fexp_exact 24 128 (Zpos p) e1 loc_Exact ltac:(lia))
    as [H3 H4].
  destruct (shr_fexp 24 128 (Zpos p) e1 loc_Exact) as [mrs'' e2].
  cbn [fst snd Zdigits2] in H3, H4.
  destruct (Z_lt_le_dec (Zpos p) 16777216) as [Hp|Hp].
  - assert (Zpos (digits2_pos p) = 24) as Hd.
    { apply digits2_pos_unique; [|lia].
      change (2 ^ (24 - 1)) with 8388608. change (2 ^ 24) with 16777216.
      lia. }
    rewrite Hd, fexp_normal in H3, H4 by lia.
    replace (24 + e1 - 24 - e1) with 0 in H3, H4 by lia.
    change (0 <? 0) with false in H3, H4. cbv iota in H3, H4.
    rewrite H3, H4. destruct (e1 <=? 128 - 24); [|done]. lia.
  - assert (Zpos p = 16777216) as Hp' by lia.
    assert (Zpos (digits2_pos p) = 25) as Hd.
    { apply digits2_pos_unique; [|lia].
      change (2 ^ (25 - 1)) with 16777216. change (2 ^ 25) with 33554432.
      lia. }
    rewrite Hd, fexp_normal in H3, H4 by lia.
    replace (25 + e1 - 24 - e1) with 1 in H3, H4 by lia.
    change (0 <? 1) with true in H3, H4. cbv iota in H3, H4.
    rewrite Hp' in H3. change (16777216 / 2 ^ 1) with 8388608 in H3.
    rewrite H3, H4. destruct (e1 + 1 <=? 128 - 24); [|done]. lia.
Qed.

(** A float32 of at least one has a full mantissa. *)
Lemma at_least_one_shape (m : positive) (e : Z) :
  bounded 24 128 m e = true ->
  SFleb (S754_finite false 8388608 (-23)) (S754_finite false m e) = true ->
  8388608 <= Zpos m < 16777216 /\ -23 <= e.
Proof.
  intros Hb Hx.
  assert (-23 <= e) as He.
  { unfold SFleb, SFcompare in Hx.
    destruct (Z.compare_spec (-23) e) as [H|H|H]; [lia|lia|discriminate]. }
  split; [|done].
  unfold bounded in Hb. apply andb_true_iff in Hb as [Hc _].
  unfold canonical_mantissa in Hc. apply Z.eqb_eq in Hc.
  rewrite fexp_normal in Hc by lia.
  assert (Zpos (digits2_pos m) = 24) as Hd by lia.
  pose proof (digits2_pos_bound m) as Hhi.
  pose proof (digits2_pos_lower m) as Hlo.
  rewrite Hd in Hhi, Hlo.
  change (2 ^ 24) with 16777216 in Hhi.
  change (2 ^ (24 - 1)) with 8388608 in Hlo. lia.
Qed.

(** X6: a network output of one or more --- [+inf] included --- is
    written as 255: multiplied by 255.0 it is at least 255.0, and the clip
    brings it down to 255.0 exactly. *)
Theorem output_of_one_or_more_is_white (x : spec_float) :
  valid_binary F32.prec F32.emax x = true ->
  SFleb F32.one x = true ->
  F32.to_pixel x = Some 255.
Proof.
  intros Hvalid Hx.
  assert (F32.clipped x = F32.c255) as Hclip.
  2:{ unfold F32.to_pixel. rewrite Hclip. apply c255_pixel. }
  change F32.one with (S754_finite false 8388608 (-23)) in Hx.
  unfold F32.clipped. rewrite c255_bits.
  destruct x as [s|[]| |[] m e]; try discriminate Hx.
  - reflexivity.
  - destruct (at_least_one_shape m e Hvalid Hx) as [Hm He].
    unfold F32.mul, SFmul. cbn [xorb].
    change F32.prec with 24. change F32.emax with 128.
    pose proof (mul_c255_at_least_one m e Hm He) as Hy.
    destruct (binary_round_aux 24 128 false _ _ _) as [s'|[]| |[] m' e'];
      try done.
    unfold F32.clip, F32.npy_max.
    change (SFltb F32.zero (S754_finite false m' e')) with true.
    cbn [F32.is_nan]. unfold F32.npy_min. cbn [F32.is_nan].
    rewrite ltb_c255.
    destruct Hy as [Hy|[-> Hy]].
    + by replace (e' ?= -16) with Gt
        by (symmetry; apply Z.compare_gt_iff; lia).
    + change (-16 ?= -16) with Eq. cbv iota.
      destruct (Pos.compare_spec m' 16711680) as [Hc|Hc|Hc]; try done.
      apply Pos2Z.pos_lt_pos in Hc. lia.
Qed.

Lemma output_of_one_or_more_is_white_witness :
  F32.to_pixel (S754_finite false 12582912 (-23)) = Some 255.
Proof.
  exact (output_of_one_or_more_is_white (S754_finite false 12582912 (-23))
           eq_refl eq_refl).
Defined.

(** ** The restore map, in general *)

Lemma length_append (a b : string) :
  String.length (a +:+ b) = (String.length a + String.length b)%nat.
Proof. induction a as [|c a IH]; simpl; [done|by rewrite IH]. Qed.

Lemma substring_prefix (a b : string) :
  substring 0 (String.length a) (a +:+ b) = a.
Proof.
  induction a as [|c a IH]; simpl; [by destruct b|by rewrite IH].
Qed.

Lemma drop_last2_suffix (n : string) : PyStr.drop_last2 (n +:+ ":0") = n.
Proof.
  unfold PyStr.drop_last2. rewrite length_append. simpl.
  replace (String.length n + 2 - 2)%nat with (String.length n) by lia.
  apply substring_prefix.
Qed.

Lemma tensor_name_in_fragment (n : string) :
  PyRe.in_fragment n = true ->
  PyRe.in_fragment (n +:+ ":0") = true
  /\ In ":"%char (PyStr.to_list (n +:+ ":0")).
Proof.
  unfold PyRe.in_fragment. rewrite to_list_app. intros Hn. split.
  - rewrite existsb_app. apply negb_true_iff in Hn. by rewrite Hn.
  - apply in_or_app. right. by left.
Qed.

(** X7: for a variable named [n:0], whatever [n] is --- a name that
    mentions [global_step] included --- as long as it has no regular
    expression metacharacter but the dot, the key under which it is
    restored is [n/ExponentialMovingAverage]. *)
Theorem restore_key_of_tensor_name (n : string) (trainable : bool) :
  PyRe.in_fragment n = true ->
  Restore.restore_key {| var_name := n +:+ ":0"; var_trainable := trainable |}
  = Some (n +:+ "/ExponentialMovingAverage").
Proof.
  intros Hn. destruct (tensor_name_in_fragment n Hn) as [Hf Hc].
  rewrite restore_key_colon by done. cbn [var_name].
  by rewrite drop_last2_suffix.
Qed.

Lemma restore_key_of_tensor_name_witness :
  Restore.restore_key
    {| var_name := "fnet/global_step.scale:0"; var_trainable := true |}
  = Some "fnet/global_step.scale/ExponentialMovingAverage".
Proof.
  exact (restore_key_of_tensor_name "fnet/global_step.scale" true eq_refl).
Defined.

Lemma fill_dict_foldr (vars : list TFVariable) :
  forall d : gmap string TFVariable,
  Forall (fun v => PyRe.in_fragment (var_name v) = true
                   /\ In ":"%char (PyStr.to_list (var_name v))) vars ->
  Restore.fill_dict vars d
  = Some (foldr (fun p m => <[p.1 := p.2]> m) d
            (reverse (map ema_entry vars))).
Proof.
  induction vars as [|v vars IH]; intros d Hall; [done|].
  inversion Hall as [|? ? [Hf Hc] Hrest]; subst.
  cbn [Restore.fill_dict]. rewrite (restore_key_colon v Hf Hc).
  rewrite IH by done. cbn [map]. rewrite reverse_cons, foldr_app. done.
Qed.

Lemma size_list_to_map_le (l : list (string * TFVariable)) :
  (size (list_to_map l : gmap string TFVariable) <= length l)%nat.
Proof.
  induction l as [|[k v] l IH]; [done|].
  change (list_to_map ((k, v) :: l) : gmap string TFVariable)
    with (<[k := v]> (list_to_map l : gmap string TFVariable)).
  rewrite map_size_insert.
  destruct ((list_to_map l : gmap string TFVariable) !! k);
    unfold id; cbn [length]; [by apply Nat.le_le_succ_r|by apply le_n_S].
Qed.

(** X8: with [use_ema] set and variable names of the form [scope/name:k],
    the restore map is built entry by entry under the moving-average keys,
    a later variable replacing an earlier one of the same key: it is the
    map of the list of entries read backwards. Every variable's key is
    present, every key present is some variable's, and no variable is
    restored under its plain name. *)
Theorem restore_map_is_all_moving_averages (vars : list TFVariable) :
  Forall (fun v => PyRe.in_fragment (var_name v) = true
                   /\ In ":"%char (PyStr.to_list (var_name v))) vars ->
  exists d : gmap string TFVariable,
    Restore.restore_vars_dict true vars = Some (RestoreDict d)
    /\ d = list_to_map (reverse (map ema_entry vars))
    /\ (forall v, v ∈ vars ->
          is_Some (d !! (PyStr.drop_last2 (var_name v)
                         +:+ "/ExponentialMovingAverage")))
    /\ (forall k u, d !! k = Some u ->
          u ∈ vars
          /\ k = PyStr.drop_last2 (var_name u) +:+ "/ExponentialMovingAverage")
    /\ (forall prefix v,
          vars = prefix ++ [v] ->
          d !! (PyStr.drop_last2 (var_name v) +:+ "/ExponentialMovingAverage")
          = Some v)
    /\ (size d <= length vars)%nat.
Proof.
  intros Hall.
  exists (list_to_map (reverse (map ema_entry vars))).
  split; [|split; [done|]].
  { unfold Restore.restore_vars_dict. by rewrite fill_dict_foldr. }
  split; [|split; [|split]].
  - intros v Hv.
    destruct (list_to_map (reverse (map ema_entry vars))
              !! (PyStr.drop_last2 (var_name v) +:+ "/ExponentialMovingAverage"))
      as [u|] eqn:Hl; [by eexists|].
    exfalso. apply not_elem_of_list_to_map_2 in Hl. apply Hl.
    rewrite fmap_reverse, elem_of_reverse. apply list_elem_of_fmap.
    exists (ema_entry v). split; [done|].
    apply list_elem_of_fmap. by exists v.
  - intros k u Hl. apply elem_of_list_to_map_2 in Hl.
    rewrite elem_of_reverse in Hl.
    apply list_elem_of_fmap in Hl as (v & Heq & Hv).
    injection Heq as -> ->. by split.
  - intros prefix v ->. rewrite map_app, reverse_app. cbn [map reverse].
    apply lookup_insert_eq.
  - etrans; [apply size_list_to_map_le|].
    by rewrite length_reverse, length_map.
Qed.

Lemma restore_map_is_all_moving_averages_witness :
  exists d : gmap string TFVariable,
    Restore.restore_vars_dict true [Sample.weight; Sample.global_step]
    = Some (RestoreDict d)
    /\ d = list_to_map (reverse (map ema_entry [Sample.weight; Sample.global_step])).
Proof.
  destruct (restore_map_is_all_moving_averages
              [Sample.weight; Sample.global_step]) as (d & H1 & H2 & _).
  - repeat apply Forall_cons_2; [| |apply Forall_nil_2].
    + exact (tensor_name_in_fragment "generator/conv/kernel" eq_refl).
    + exact (tensor_name_in_fragment "global_step" eq_refl).
  - exists d. by split.
Defined.

(** ** _get_ema_vars *)

Lemma prefix_append (needle s : string) :
  String.prefix needle s = true <-> exists rest, s = needle +:+ rest.
Proof.
  revert s. induction needle as [|c needle IH]; intros s.
  - split; [intros _; by exists s|by destruct s].
  - destruct s as [|d s]; simpl.
    + split; [done|intros [rest Hrest]; discriminate].
    + destruct (Ascii.ascii_dec c d) as [->|Hne].
      * rewrite IH. split; intros [rest Hrest]; exists rest.
        -- by rewrite Hrest.
        -- by injection Hrest.
      * split; [done|]. intros [rest Hrest]. by injection Hrest.
Qed.

(** [needle in s] holds exactly of the strings that have [needle]
    somewhere inside. *)
Lemma contains_infix (needle s : string) :
  Ema.contains needle s = true
  <-> exists before rest, s = before +:+ needle +:+ rest.
Proof.
  induction s as [|c s IH].
  - cbn [Ema.contains]. rewrite orb_false_r, prefix_append. split.
    + intros [rest Hrest]. by exists "", rest.
    + intros ([|d before] & rest & Hs); [by exists rest|discriminate].
  - cbn [Ema.contains]. rewrite orb_true_iff, prefix_append, IH. split.
    + intros [[rest Hrest]|(before & rest & Hrest)].
      * by exists "", rest.
      * exists (String c before), rest. simpl. by rewrite Hrest.
    + intros ([|d before] & rest & Hs).
      * left. by exists rest.
      * right. injection Hs as -> ->. by exists before, rest.
Qed.

Lemma size_list_to_set_le (l : list TFVariable) :
  (size (list_to_set l : gset TFVariable) <= length l)%nat.
Proof.
  induction l as [|v l IH]; [done|].
  cbn [list_to_set length]. rewrite size_union_alt, size_singleton.
  pose proof (subseteq_size (list_to_set l ∖ {[v]})
                (list_to_set l : gset TFVariable)) as Hle.
  specialize (Hle ltac:(by apply subseteq_difference_l)). lia.
Qed.

(** X9: a variable is among the EMA variables exactly when it is
    trainable, or in the [moving_vars] collection, or a global variable
    whose name has [moving_mean] or [moving_variance] somewhere inside;
    one that qualifies several times over is there once, so there are at
    most as many as the three collections hold together. *)
Theorem ema_vars_are_the_three_collections
    (trainable moving_vars global_vars : list TFVariable) :
  (forall v,
     v ∈ Ema.get_ema_vars trainable moving_vars global_vars
     <-> v ∈ trainable
         \/ v ∈ moving_vars
         \/ (v ∈ global_vars
             /\ exists before rest,
                  var_name v = before +:+ "moving_mean" +:+ rest
                  \/ var_name v = before +:+ "moving_variance" +:+ rest))
  /\ (size (Ema.get_ema_vars trainable moving_vars global_vars)
      <= length trainable + length moving_vars + length global_vars)%nat.
Proof.
  unfold Ema.get_ema_vars. split.
  - intros v. rewrite elem_of_list_to_set, !elem_of_app.
    rewrite (list_elem_of_In (List.filter _ _)), filter_In,
      <- list_elem_of_In.
    unfold Ema.is_moving_stat. rewrite orb_true_iff, !contains_infix.
    split.
    + intros [H|[H|[H [(b & r & Hn)|(b & r & Hn)]]]]; auto.
      * right. right. split; [done|]. exists b, r. by left.
      * right. right. split; [done|]. exists b, r. by right.
    + intros [H|[H|[H (b & r & [Hn|Hn])]]]; auto.
      * right. right. split; [done|]. left. by exists b, r.
      * right. right. split; [done|]. right. by exists b, r.
  - etrans; [apply size_list_to_set_le|].
    rewrite !length_app.
    pose proof (filter_length_le Ema.is_moving_stat global_vars).
    lia.
Qed.

(** ** process_video: every way out *)

Lemma reader_len_opened (path : string) (v : Video) (s e : Z) :
  reader_len (reader_opened path v s e)
  = (if 0 <? e then e else v_frame_count v) - s.
Proof. unfold reader_len, reader_opened. by destruct (0 <? s). Qed.

Lemma run_session_rejects (E : Env) (checkpoint : string) (r : VideoReader)
    (input_shape output_shape : list Z) (w : World) :
  reader_len r < 0 \/ Py.maxsize < reader_len r ->
  run_session E checkpoint r input_shape output_shape w
  = (Raise (if reader_len r <? 0
            then ValueError "__len__() should return >= 0"
            else OverflowError "cannot fit 'int' into an index-sized integer"),
     {| fs := fs w;
        trace := trace w ++ [EvSessionInit; EvRestore checkpoint] |}).
Proof.
  intros Hlen. unfold run_session, Py.len.
  destruct (reader_len r <? 0) eqn:Hneg.
  - unfold bind, emit, raise. cbn [fs trace]. by rewrite <- app_assoc.
  - replace (Py.maxsize <? reader_len r) with true by lia.
    unfold bind, emit, raise. cbn [fs trace]. by rewrite <- app_assoc.
Qed.

(** The outcome of a run, read off its arguments. *)
Lemma run_exit_table (E : Env)
    (input_video output_video : string) (checkpoint_path : option string)
    (num_resblock vsr_scale : Z) (use_ema : bool) (start_flag end_flag : Z)
    (fps_flag : spec_float) (files : gset string) :
  fst (run E input_video output_video checkpoint_path num_resblock vsr_scale
         use_ema start_flag end_flag fps_flag files)
  = match checkpoint_path, videos E input_video with
    | None, _ =>
        Raise (ValueError
                 "The checkpoint file is needed to perform super-resolution.")
    | Some _, None =>
        Raise (ValueError ("Could not open video file: " +:+ input_video))
    | Some _, Some v =>
        match v_frames v,
              Restore.restore_vars_dict use_ema (trainable_variables E) with
        | [], _ =>
            Raise (ValueError
                     ("Could not read from video file: " +:+ input_video))
        | _ :: _, None => Beyond
        | _ :: _, Some _ =>
            let total_frames :=
              (if 0 <? end_flag then end_flag else v_frame_count v)
              - start_flag in
            if negb (writer_can_open E (output_video +:+ ".temp.mp4"))
            then Raise (ValueError
                          ("Could not open video writer for: "
                           +:+ output_video))
            else if total_frames <? 0
            then Raise (ValueError "__len__() should return >= 0")
            else if 2 ^ 63 - 1 <? total_frames
            then Raise (OverflowError
                          "cannot fit 'int' into an index-sized integer")
            else if total_frames =? 0
            then Raise ZeroDivisionError
            else Return tt
        end
    end.
Proof.
  destruct checkpoint_path as [checkpoint|]; [|reflexivity].
  destruct (videos E input_video) as [v|] eqn:Hv.
  2:{ unfold run, process_video, reader_init. by rewrite Hv. }
  destruct (v_frames v) as [|first rest] eqn:Hframes.
  { unfold run, process_video.
    unfold bind at 1. rewrite (reader_init_runs E _ v) by done.
    unfold bind at 1. unfold probe_first_frame, Cap.read. rewrite Hv.
    cbn [cap_video cap_pos]. by rewrite Hframes. }
  assert (v_frames v !! 0%nat = Some first) as Hfirst by by rewrite Hframes.
  destruct (Restore.restore_vars_dict use_ema (trainable_variables E))
    as [restore_vars|] eqn:Hrestore.
  2:{ unfold run, process_video.
      unfold bind at 1. rewrite (reader_init_runs E _ v) by done.
      unfold bind at 1.
      rewrite (probe_first_frame_runs E _ v first) by done.
      by rewrite Hrestore. }
  rewrite (run_setup E _ _ _ _ _ _ _ _ _ _ v first restore_vars) by done.
  cbv zeta. change (output_video +:+ ".temp.mp4") with (temp_path output_video).
  destruct (writer_can_open E (temp_path output_video)); [|reflexivity].
  cbn [negb]. rewrite <- (reader_len_opened input_video).
  set (r := reader_opened input_video v start_flag end_flag).
  change (2 ^ 63 - 1) with Py.maxsize.
  destruct (Z_lt_le_dec (reader_len r) 0) as [Hneg|Hpos];
    [|destruct (Z_lt_le_dec Py.maxsize (reader_len r)) as [Hbig|Hfit]].
  - unfold bind at 1. rewrite run_session_rejects by (by left).
    by replace (reader_len r <? 0) with true by lia.
  - unfold bind at 1. rewrite run_session_rejects by (by right).
    replace (reader_len r <? 0) with false by lia.
    by replace (Py.maxsize <? reader_len r) with true by lia.
  - unfold bind at 1. rewrite run_session_runs by lia. rewrite finish_runs.
    replace (reader_len r <? 0) with false by lia.
    by replace (Py.maxsize <? reader_len r) with false by lia.
Qed.

Lemma run_begins_by_opening (E : Env)
    (input_video output_video checkpoint : string)
    (num_resblock vsr_scale : Z) (use_ema : bool) (start_flag end_flag : Z)
    (fps_flag : spec_float) (files : gset string) :
  exists opened rest,
    trace (snd (run E input_video output_video (Some checkpoint) num_resblock
                  vsr_scale use_ema start_flag end_flag fps_flag files))
    = EvCaptureOpen ReaderCap input_video opened :: rest.
Proof.
  destruct (videos E input_video) as [v|] eqn:Hv.
  2:{ exists false, []. unfold run, process_video, reader_init.
      by rewrite Hv. }
  exists true.
  destruct (v_frames v) as [|first more] eqn:Hframes.
  { eexists. unfold run, process_video.
    unfold bind at 1. rewrite (reader_init_runs E _ v) by done.
    unfold bind at 1. unfold probe_first_frame, Cap.read. rewrite Hv.
    cbn [cap_video cap_pos]. rewrite Hframes.
    unfold bind, emit, raise. cbn [lookup list_lookup snd fs trace].
    rewrite <- !app_assoc. reflexivity. }
  assert (v_frames v !! 0%nat = Some first) as Hfirst by by rewrite Hframes.
  destruct (Restore.restore_vars_dict use_ema (trainable_variables E))
    as [restore_vars|] eqn:Hrestore.
  2:{ eexists. unfold run, process_video.
      unfold bind at 1. rewrite (reader_init_runs E _ v) by done.
      unfold bind at 1.
      rewrite (probe_first_frame_runs E _ v first) by done.
      rewrite Hrestore. unfold bind, emit, beyond. cbn [snd fs trace].
      rewrite <- !app_assoc. reflexivity. }
  rewrite (run_setup E _ _ _ _ _ _ _ _ _ _ v first restore_vars) by done.
  cbv zeta.
  edestruct (run_rest_quiet E checkpoint output_video) as (evs & -> & _).
  cbn [trace]. unfold setup_events. eexists. reflexivity.
Qed.


(** X11: when the writer has opened and [len(video_reader)] is then
    refused --- [start_frame] lies beyond the end of the range, or the
    range is longer than an index can be --- the run stops right after
    the checkpoint restore: no frame is read, fed or written, the writer
    is never released, the encoder is never run, and the temporary file
    the writer created is left behind. *)
Theorem refused_length_strands_the_temporary_file (E : Env)
    (input_video output_video checkpoint : string)
    (num_resblock vsr_scale : Z) (use_ema : bool) (start_flag end_flag : Z)
    (fps_flag : spec_float) (files : gset string) (v : Video)
    (first : RawFrame) (restore_vars : RestoreSpec) :
  videos E input_video = Some v ->
  v_frames v !! 0%nat = Some first ->
  Restore.restore_vars_dict use_ema (trainable_variables E) = Some restore_vars ->
  writer_can_open E (output_video +:+ ".temp.mp4") = true ->
  let total_frames :=
    (if 0 <? end_flag then end_flag else v_frame_count v) - start_flag in
  total_frames < 0 \/ 2 ^ 63 - 1 < total_frames ->
  let final :=
    run E input_video output_video (Some checkpoint) num_resblock vsr_scale
      use_ema start_flag end_flag fps_flag files in
  let t := trace (snd final) in
  fst final
  = Raise (if total_frames <? 0
           then ValueError "__len__() should return >= 0"
           else OverflowError "cannot fit 'int' into an index-sized integer")
  /\ t = setup_events input_video output_video num_resblock vsr_scale
           start_flag fps_flag files v first restore_vars true
         ++ [EvSessionInit; EvRestore checkpoint]
  /\ frames_read t = [] /\ session_runs t = [] /\ written t = []
  /\ commands t = []
  /\ (EvWriterRelease ∉ t)
  /\ fs (snd final)
     = {[output_video +:+ ".temp.mp4"]} ∪ files_with_dir output_video files
  /\ (output_video +:+ ".temp.mp4" ∈ fs (snd final)).
Proof.
  intros Hv Hfirst Hrestore Hw total_frames Hlen final t.
  change (output_video +:+ ".temp.mp4") with (temp_path output_video) in *.
  assert (final
          = (Raise (if total_frames <? 0
                    then ValueError "__len__() should return >= 0"
                    else OverflowError
                           "cannot fit 'int' into an index-sized integer"),
             {| fs := files_at_loop output_video files;
                trace := setup_events input_video output_video num_resblock
                           vsr_scale start_flag fps_flag files v first
                           restore_vars true
                         ++ [EvSessionInit; EvRestore checkpoint] |}))
    as Hrun.
  { unfold final.
    rewrite (run_setup E _ _ _ _ _ _ _ _ _ _ v first restore_vars) by done.
    cbv zeta. rewrite Hw. unfold bind at 1.
    rewrite run_session_rejects by (by rewrite reader_len_opened).
    by rewrite reader_len_opened. }
  destruct (setup_quiet input_video output_video num_resblock vsr_scale
              start_flag fps_flag files v first restore_vars true)
    as (_ & S2 & S3 & _ & S5 & _ & S7 & _).
  unfold t. rewrite Hrun. cbn [fst snd fs trace].
  split; [done|]. split; [done|].
  unfold frames_read, session_runs, written, commands in *.
  rewrite !omap_app, S2, S3, S5, S7.
  split; [done|]. split; [done|]. split; [done|]. split; [done|].
  split; [|split; [done|]].
  - intros Hin. apply list_elem_of_In in Hin. unfold setup_events in Hin.
    destruct (0 <? start_flag), (needs_makedirs output_video files);
      simpl in Hin; intuition discriminate.
  - unfold files_at_loop. apply elem_of_union_l. by apply elem_of_singleton.
Qed.

Lemma refused_length_strands_the_temporary_file_witness :
  fst (run Sample.env "in.mp4" "out.mp4" (Some "ckpt") 10 4 true 10 5
         (S754_zero false) ∅)
  = Raise (ValueError "__len__() should return >= 0")
  /\ "out.mp4.temp.mp4"
     ∈ fs (snd (run Sample.env "in.mp4" "out.mp4" (Some "ckpt") 10 4 true 10 5
                  (S754_zero false) ∅)).
Proof.
  pose proof (refused_length_strands_the_temporary_file Sample.env "in.mp4"
                "out.mp4" "ckpt" 10 4 true 10 5 (S754_zero false) ∅
                Sample.clip7 [[[10; 11; 12]]] _ eq_refl eq_refl eq_refl eq_refl
                (or_introl eq_refl))
    as (Hexit & _ & _ & _ & _ & _ & _ & _ & Hleft).
  exact (conj Hexit Hleft).
Defined.

Lemma pending_empty_range (path : string) (v : Video) (s e : Z) :
  (if 0 <? e then e else v_frame_count v) - s <= 0 ->
  pending (reader_opened path v s e) = [].
Proof.
  intros Hlen. unfold pending, reader_opened.
  destruct (0 <? s) eqn:Hs; simpl.
  - by replace (Z.to_nat _) with 0%nat by lia.
  - by replace (Z.to_nat _) with 0%nat by lia.
Qed.

(** X12: on an empty range ([end_frame] equal to [start_frame], or no
    [end_frame] and [start_frame] at the container's frame count) nothing
    is read, fed or written, and yet the writer is released, the encoder
    is run on the empty temporary file and that file is removed; only
    then does the run fail, with [ZeroDivisionError], in its closing
    report. *)
Theorem empty_range_fails_after_encoding (E : Env)
    (input_video output_video : string) (checkpoint_path : option string)
    (num_resblock vsr_scale : Z) (use_ema : bool) (start_flag end_flag : Z)
    (fps_flag : spec_float) (files : gset string) (v : Video)
    (first : RawFrame) :
  Ready E input_video output_video checkpoint_path use_ema
    start_flag end_flag v first ->
  (if 0 <? end_flag then end_flag else v_frame_count v) = start_flag ->
  let final :=
    run E input_video output_video checkpoint_path num_resblock vsr_scale
      use_ema start_flag end_flag fps_flag files in
  let t := trace (snd final) in
  let temp := output_video +:+ ".temp.mp4" in
  let cmd := "ffmpeg -i " +:+ temp +:+ " -c:v libx264 -crf 18 -preset slow "
             +:+ output_video +:+ " -y" in
  fst final = Raise ZeroDivisionError
  /\ frames_read t = [] /\ session_runs t = [] /\ written t = []
  /\ commands t = [cmd]
  /\ (exists before cleanup,
        t = before ++ [EvWriterRelease; EvSystem cmd] ++ cleanup)
  /\ fs (snd final)
     = os_system E cmd ({[temp]} ∪ files_with_dir output_video files) ∖ {[temp]}.
Proof.
  intros ready Hlen final t temp cmd.
  change temp with (temp_path output_video).
  change cmd with (ffmpeg_command (temp_path output_video) output_video).
  destruct (run_ready E input_video output_video checkpoint_path num_resblock
              vsr_scale use_ema start_flag end_flag fps_flag files v first
              ready) as (checkpoint & restore_vars & _ & _ & Hrun).
  destruct (read_ready E input_video output_video checkpoint_path num_resblock
              vsr_scale use_ema start_flag end_flag fps_flag files v first
              ready) as (_ & Hs & Hf & _ & Hw & _ & Hc & _).
  rewrite pending_empty_range in Hs, Hf, Hw by lia.
  fold final in Hrun. fold final t in Hs, Hf, Hw, Hc.
  split; [|split; [done|split; [done|split; [done|split; [done|split]]]]].
  - rewrite Hrun, reader_len_opened. cbn [fst].
    by replace (_ - _ =? 0) with true by lia.
  - eexists _, _. unfold t. rewrite Hrun. cbn [snd trace].
    unfold teardown_events. rewrite app_assoc. reflexivity.
  - by rewrite Hrun.
Qed.

Lemma empty_range_fails_after_encoding_witness :
  fst (run Sample.env "in.mp4" "out.mp4" (Some "ckpt") 10 4 true 3 3
         (S754_zero false) ∅)
  = Raise ZeroDivisionError
  /\ written (trace (snd (run Sample.env "in.mp4" "out.mp4" (Some "ckpt")
                            10 4 true 3 3 (S754_zero false) ∅))) = [].
Proof.
  assert (Ready Sample.env "in.mp4" "out.mp4" (Some "ckpt") true 3 3
            Sample.clip7 [[[10; 11; 12]]]) as ready.
  { constructor.
    - eexists. reflexivity.
    - reflexivity.
    - reflexivity.
    - eexists. reflexivity.
    - reflexivity.
    - vm_compute. split; discriminate. }
  pose proof (empty_range_fails_after_encoding Sample.env "in.mp4" "out.mp4"
                (Some "ckpt") 10 4 true 3 3 (S754_zero false) ∅
                Sample.clip7 [[[10; 11; 12]]] ready eq_refl)
    as (Hexit & _ & _ & Hnone & _).
  exact (conj Hexit Hnone).
Defined.

(** ** The whole pipeline around an identity network *)

Lemma written_loop_echo (E : Env) (raws : list RawFrame) :
  (forall feed state, generator_net E feed state = feed) ->
  Forall Frame.is_uint8_frame raws ->
  forall i s,
  map snd (written (loop_events E i s raws))
  = map (Frame.map3 Some) (drop (5 - i) raws).
Proof.
  intros Hid. induction 1 as [|raw rest Hraw Hrest IH]; intros i s.
  - by rewrite drop_nil.
  - rewrite written_loop, generated_loop_cons. cbv zeta.
    cbn [omap list_omap write_of]. rewrite <- written_loop, Hid.
    destruct (5 <=? i)%nat eqn:Hi.
    + apply Nat.leb_le in Hi. cbn [map snd]. rewrite IH, echo_frame by done.
      replace (5 - i)%nat with 0%nat by lia.
      by replace (5 - S i)%nat with 0%nat by lia.
    + apply Nat.leb_gt in Hi. rewrite IH.
      by replace (5 - i)%nat with (S (5 - S i)) by lia.
Qed.

(** X13: were the generator to hand back the tensor it is fed, the frames
    given to the writer would be the frames read from the input from the
    sixth on, byte for byte and in the same channel order: reversing the
    channels, dividing by 255.0 in float32, multiplying by 255.0, clipping,
    casting to uint8 and reversing the channels again changes no 8-bit
    value. *)
Theorem identity_network_copies_the_frames (E : Env)
    (input_video output_video : string) (checkpoint_path : option string)
    (num_resblock vsr_scale : Z) (use_ema : bool) (start_flag end_flag : Z)
    (fps_flag : spec_float) (files : gset string) (v : Video)
    (first : RawFrame) :
  Ready E input_video output_video checkpoint_path use_ema
    start_flag end_flag v first ->
  Forall Frame.is_uint8_frame (v_frames v) ->
  (forall feed state, generator_net E feed state = feed) ->
  let t :=
    trace (snd (run E input_video output_video checkpoint_path num_resblock
                  vsr_scale use_ema start_flag end_flag fps_flag files)) in
  map snd (written t)
  = map (map (map (map Some))) (drop 5 (frames_read t))
  /\ frames_read t
     = take (Z.to_nat ((if 0 <? end_flag then end_flag else v_frame_count v)
                       - Z.max 0 start_flag))
            (drop (Z.to_nat start_flag) (v_frames v)).
Proof.
  intros ready Hbytes Hid t.
  destruct (read_ready E input_video output_video checkpoint_path num_resblock
              vsr_scale use_ema start_flag end_flag fps_flag files v first
              ready) as (_ & _ & Hf & _ & Hw & _).
  fold t in Hf, Hw. rewrite frames_read_loop in Hf.
  assert (pending (reader_opened input_video v start_flag end_flag)
          = take (Z.to_nat ((if 0 <? end_flag then end_flag
                             else v_frame_count v) - Z.max 0 start_flag))
                 (drop (Z.to_nat start_flag) (v_frames v))) as Hp.
  { unfold pending, reader_opened.
    destruct (0 <? start_flag) eqn:Hs; simpl.
    - by replace (Z.max 0 start_flag) with start_flag by lia.
    - replace (Z.max 0 start_flag) with 0 by lia.
      by replace (Z.to_nat start_flag) with 0%nat by lia. }
  split; [|by rewrite Hf].
  rewrite Hw, Hf. apply written_loop_echo; [done|].
  rewrite Hp. by apply Forall_take, Forall_drop.
Qed.

Lemma identity_network_copies_the_frames_witness :
  map snd (written (trace (snd (run Sample.env "in.mp4" "out.mp4"
                                  (Some "ckpt") 10 4 true 0 (-1)
                                  (S754_zero false) ∅))))
  = [[[[Some 60; Some 61; Some 62]]]; [[[Some 70; Some 71; Some 72]]]].
Proof.
  pose proof (identity_network_copies_the_frames Sample.env "in.mp4" "out.mp4"
                (Some "ckpt") 10 4 true 0 (-1) (S754_zero false) ∅
                Sample.clip7 [[[10; 11; 12]]] sample_ready
                sample_frames_are_uint8 (fun _ _ => eq_refl)) as [Hw Hf].
  cbv zeta in Hw, Hf. rewrite Hf in Hw. exact Hw.
Defined.

(** ** main *)

(** X14: [main] looks at its three required flags, in the order input,
    output, checkpoint, before it touches anything: when one is missing
    or empty it raises the [ValueError] that names the first such flag,
    with nothing opened, created or logged. When all three are given, the
    first thing done is to open the input video, and the run ends as
    [process_video] ends on the flags' values --- never by the
    checkpoint check of [process_video] itself, which [main] has
    already made. *)
Theorem main_checks_flags_before_anything (E : Env) (F : Flags)
    (files : gset string) :
  let start := {| fs := files; trace := [] |} in
  let final := main E F start in
  (unset (flag_input_video F) = true ->
   final = (Raise (ValueError "--input_video is required"), start))
  /\ (unset (flag_input_video F) = false ->
      unset (flag_output_video F) = true ->
      final = (Raise (ValueError "--output_video is required"), start))
  /\ (unset (flag_input_video F) = false ->
      unset (flag_output_video F) = false ->
      unset (flag_checkpoint_path F) = true ->
      final = (Raise (ValueError "--checkpoint_path is required"), start))
  /\ (forall input_video output_video checkpoint,
        flag_input_video F = Some input_video -> input_video <> "" ->
        flag_output_video F = Some output_video -> output_video <> "" ->
        flag_checkpoint_path F = Some checkpoint -> checkpoint <> "" ->
        final
        = run E input_video output_video (Some checkpoint)
            (flag_num_resblock F) (flag_vsr_scale F) (flag_use_ema F)
            (flag_start_frame F) (flag_end_frame F) (flag_fps F) files
        /\ exists opened rest,
             trace (snd final)
             = EvCaptureOpen ReaderCap input_video opened :: rest)
  /\ fst final
     <> Raise (ValueError
                 "The checkpoint file is needed to perform super-resolution.").
Proof.
  intros start final. unfold final, main.
  split; [by intros ->|]. split; [by intros -> ->|].
  split; [by intros -> -> ->|]. split.
  - intros input_video output_video checkpoint Hi Hine Ho Hone Hc Hcne.
    rewrite Hi, Ho, Hc. cbn [unset default].
    apply String.eqb_neq in Hine, Hone, Hcne. rewrite Hine, Hone, Hcne.
    split; [reflexivity|].
    apply (run_begins_by_opening E input_video output_video checkpoint).
  - destruct (unset (flag_input_video F)); [discriminate|].
    destruct (unset (flag_output_video F)); [discriminate|].
    destruct (flag_checkpoint_path F) as [checkpoint|] eqn:Hc;
      [|discriminate].
    cbn [unset]. destruct (String.eqb checkpoint ""); [discriminate|].
    change (process_video E ?i ?o ?c ?n ?s ?u ?a ?b ?f start)
      with (run E i o c n s u a b f files).
    rewrite run_exit_table.
    destruct (videos E _) as [v|]; [|discriminate].
    destruct (v_frames v); [discriminate|].
    destruct (Restore.restore_vars_dict _ _); [|discriminate].
    cbv zeta. destruct (negb _); [discriminate|].
    destruct (_ <? 0); [discriminate|].
    destruct (_ <? _); [discriminate|].
    destruct (_ =? 0); discriminate.
Qed.

Lemma main_checks_flags_before_anything_witness :
  main Sample.env default_flags {| fs := ∅; trace := [] |}
  = (Raise (ValueError "--input_video is required"),
     {| fs := ∅; trace := [] |})
  /\ exists opened rest,
       trace (snd (main Sample.env sample_flags {| fs := ∅; trace := [] |}))
       = EvCaptureOpen ReaderCap "in.mp4" opened :: rest.
Proof.
  split.
  - exact (proj1 (main_checks_flags_before_anything Sample.env default_flags ∅)
             eq_refl).
  - refine (proj2 (proj1 (proj2 (proj2 (proj2
              (main_checks_flags_before_anything Sample.env sample_flags ∅))))
              "in.mp4" "out.mp4" "ckpt" eq_refl _ eq_refl _ eq_refl _));
      discriminate.
Defined.

(** ** gaussian_filter2d: the kernel's geometry *)

Lemma trunc_nonneg_product (sigma : spec_float) (k : Z) :
  SFleb (S754_zero false) sigma = true ->
  Gauss.py_int (SFmul 53 1024 sigma Gauss.four) = Some k ->
  0 <= k.
Proof.
  intros Hs. unfold Gauss.py_int.
  change Gauss.four with (S754_finite false 4503599627370496 (-50)).
  destruct sigma as [s|[]| |[] m e]; try discriminate.
  - simpl. intros [= <-]. done.
  - unfold SFmul.
    pose proof (binary_round_aux_shape 53 1024 (xorb false false)
                  (Zpos (m * 4503599627370496)) (e + -50) loc_Exact
                  eq_refl ltac:(done)) as Hshape.
    destruct (binary_round_aux _ _ _ _ _ _) as [s'|s'| |s' m' e'];
      try discriminate.
    + cbn [F32.trunc]. intros [= <-]. lia.
    + destruct Hshape as [-> _]. unfold F32.trunc, cond_Zopp.
      intros [= <-]. destruct (0 <=? e') eqn:He.
      * apply Z.mul_nonneg_nonneg; [done|]. apply Z.pow_nonneg. lia.
      * apply Z.leb_gt in He.
        apply Z.div_pos; [done|]. apply Z.pow_pos_nonneg; lia.
Qed.

(** X15: for a [sigma] that is not negative, the kernel has an odd
    number of taps, at least one; they are the offsets [-p .. p] with
    [p = size // 2], one each, in increasing order; and [p] is the
    padding added on every side, so the 'VALID' convolution gives back
    an image of the size it was given. *)
Theorem kernel_is_odd_and_centred (sigma : spec_float) (size : Z) :
  SFleb (S754_zero false) sigma = true ->
  Gauss.kernel_size sigma = Some size ->
  1 <= size
  /\ Z.odd size = true
  /\ size = 2 * Gauss.pad size + 1
  /\ Gauss.taps size
     = map (fun i => Z.of_nat i - Gauss.pad size) (seq 0 (Z.to_nat size))
  /\ length (Gauss.taps size) = Z.to_nat size
  /\ (forall x,
        x ∈ Gauss.taps size <-> - Gauss.pad size <= x <= Gauss.pad size)
  /\ (forall height,
        0 <= height -> height + 2 * Gauss.pad size - size + 1 = height).
Proof.
  intros Hs. unfold Gauss.kernel_size.
  destruct (Gauss.py_int _) as [k|] eqn:Hk; [|discriminate].
  intros [= <-]. apply (trunc_nonneg_product sigma k Hs) in Hk.
  assert (Gauss.pad (k * 2 + 1) = k) as Hpad.
  { unfold Gauss.pad. symmetry. apply (Z.div_unique _ 2 _ 1); lia. }
  assert ((- (k * 2 + 1)) / 2 = - k - 1) as Hneg.
  { symmetry. apply (Z.div_unique _ 2 _ 1); lia. }
  assert (Gauss.taps (k * 2 + 1)
          = map (fun i => Z.of_nat i - k) (seq 0 (Z.to_nat (k * 2 + 1))))
    as Htaps.
  { unfold Gauss.taps, Gauss.py_range. fold (Gauss.pad (k * 2 + 1)).
    rewrite Hneg, Hpad.
    replace (k + 1 - (- k - 1 + 1)) with (k * 2 + 1) by lia.
    apply map_ext. intros i. lia. }
  rewrite Hpad, Htaps.
  split; [lia|]. split; [|split; [lia|split; [done|split; [|split]]]].
  - rewrite Z.add_comm, Z.mul_comm. apply Z.odd_add_mul_2.
  - by rewrite length_map, length_seq.
  - intros x. rewrite list_elem_of_fmap. split.
    + intros (i & -> & Hi). apply elem_of_seq in Hi. lia.
    + intros Hx. exists (Z.to_nat (x + k)). split; [lia|].
      apply elem_of_seq. lia.
  - intros height _. lia.
Qed.

Lemma kernel_is_odd_and_centred_witness :
  Gauss.kernel_size (S754_finite false 6755399441055744 (-52)) = Some 13
  /\ Gauss.taps 13 = [-6; -5; -4; -3; -2; -1; 0; 1; 2; 3; 4; 5; 6]
  /\ Gauss.pad 13 = 6.
Proof.
  assert (Gauss.kernel_size (S754_finite false 6755399441055744 (-52))
          = Some 13) as Hsize by (vm_compute; reflexivity).
  pose proof (kernel_is_odd_and_centred
                (S754_finite false 6755399441055744 (-52)) 13
                eq_refl Hsize) as (_ & _ & Hp & Ht & _).
  split; [exact Hsize|]. split; [exact Ht|]. reflexivity.
Defined.
(** ** dense_image_warp: the gathered pixels *)

Lemma wrap32_small (z : Z) : - 2 ^ 31 <= z < 2 ^ 31 -> Warp.wrap32 z = z.
Proof.
  unfold Warp.wrap32.
  change (2 ^ 32) with 4294967296. change (2 ^ 31) with 2147483648.
  intros Hz. rewrite Z.mod_small; lia.
Qed.

(** X16: in an image whose sides fit an [int32], if the top-left pixel of
    a position lies in the image, so do the three other pixels gathered
    for it; the bottom-right one is the next pixel down and to the right,
    except on the last row or column, where the clamp makes it stay. *)
Theorem warp_gathers_inside_the_image (height width : Z) (top_left : Z * Z) :
  height <= 2 ^ 31 - 1 -> width <= 2 ^ 31 - 1 ->
  Warp.in_image height width top_left ->
  let '(pos_top_left, pos_top_right, pos_bottom_left, pos_bottom_right) :=
    Warp.corners height width top_left in
  Warp.in_image height width pos_top_left
  /\ Warp.in_image height width pos_top_right
  /\ Warp.in_image height width pos_bottom_left
  /\ Warp.in_image height width pos_bottom_right
  /\ pos_top_left = top_left
  /\ pos_bottom_right
     = (if fst top_left =? height - 1 then fst top_left else fst top_left + 1,
        if snd top_left =? width - 1 then snd top_left else snd top_left + 1)
  /\ pos_top_right = (fst top_left, snd pos_bottom_right)
  /\ pos_bottom_left = (fst pos_bottom_right, snd top_left).
Proof.
  change (2 ^ 31 - 1) with 2147483647.
  intros Hh Hw [Hy Hx]. destruct top_left as [y x]. cbn [fst snd] in *.
  unfold Warp.corners, Warp.in_image. cbn [fst snd].
  rewrite !wrap32_small by (change (2 ^ 31) with 2147483648; lia).
  assert (Z.min (y + 1) (height - 1)
          = if y =? height - 1 then y else y + 1) as ->
    by (destruct (Z.eqb_spec y (height - 1)); lia).
  assert (Z.min (x + 1) (width - 1)
          = if x =? width - 1 then x else x + 1) as ->
    by (destruct (Z.eqb_spec x (width - 1)); lia).
  destruct (Z.eqb_spec y (height - 1)), (Z.eqb_spec x (width - 1));
    repeat split; lia.
Qed.

Lemma warp_gathers_inside_the_image_witness :
  Warp.corners 4 6 (3, 2) = ((3, 2), (3, 3), (3, 2), (3, 3)).
Proof.
  assert (Warp.in_image 4 6 (3, 2)) as Hin
    by (unfold Warp.in_image; cbn [fst snd]; lia).
  pose proof (warp_gathers_inside_the_image 4 6 (3, 2)
                ltac:(vm_compute; discriminate) ltac:(vm_compute; discriminate)
                Hin) as H.
  destruct (Warp.corners 4 6 (3, 2)) as [[[tl tr] bl] br].
  destruct H as (_ & _ & _ & _ & -> & -> & -> & ->). reflexivity.
Defined.
